(** * Farmart backend: ownership-scoped handlers over a transactional store

    A shallow embedding of [app/models.py], [app/auth/views.py],
    [app/orders/routes.py] and [app/wishlist/routes.py].  Handlers are
    written in a small state-and-exception monad over a SQLAlchemy-like
    session (committed rows, the open transaction, pending objects and a
    log of the statements sent to the database). *)

From Stdlib Require Import ZArith Lia Ascii String Floats.PrimFloat Floats.SpecFloat
  Floats.FloatOps Numbers.Cyclic.Int63.Uint63.
From stdpp Require Import base option list strings gmap pretty.

Local Open Scope Z_scope.
Local Open Scope string_scope.
Set Warnings "-register-all".

(** ** JSON values, as [request.get_json()] and [jsonify] see them *)

Inductive json : Type :=
  | JNull
  | JBool (b : bool)
  | JInt (n : Z)
  | JFloat (f : float)
  | JStr (s : string)
  | JArr (l : list json)
  | JObj (l : list (string * json)).

(** Python truthiness of a decoded JSON value. *)
Definition truthy (j : json) : bool :=
  match j with
  | JNull => false
  | JBool b => b
  | JInt n => negb (Z.eqb n 0)
  | JFloat f => negb (PrimFloat.eqb f 0%float)
  | JStr s => negb (String.eqb s "")
  | JArr l => match l with [] => false | _ => true end
  | JObj l => match l with [] => false | _ => true end
  end.

(** [dict.get(k)]: a missing key reads as [None]. *)
Definition dict_get (data : gmap string json) (k : string) : json :=
  default JNull (data !! k).

(** [dict.get(k, d)]. *)
Definition dict_get_default (data : gmap string json) (k : string) (d : json) : json :=
  default d (data !! k).

(** [k in data]. *)
Definition dict_has (data : gmap string json) (k : string) : bool :=
  bool_decide (is_Some (data !! k)).

(** [not data] for a body that is [None] or a dict. *)
Definition body_falsy (body : option (gmap string json)) : bool :=
  match body with
  | None => true
  | Some d => bool_decide (d = ∅)
  end.

(** A Python [str] is held as its UTF-8 bytes: its length in characters
    is the number of bytes that are not continuation bytes. *)
Fixpoint utf8_length (s : string) : nat :=
  match s with
  | EmptyString => 0%nat
  | String c s =>
      let n := nat_of_ascii c in
      ((if Nat.leb 128 n && Nat.ltb n 192 then 0 else 1) + utf8_length s)%nat
  end.

(** No NUL character: the database driver refuses to send a string that
    holds one. *)
Fixpoint nul_free (s : string) : bool :=
  match s with
  | EmptyString => true
  | String c s => negb (Nat.eqb (nat_of_ascii c) 0) && nul_free s
  end.

(** The integer a float is, when it is one.  A finite float is
    [m * 2 ^ e], negated when its sign is set. *)
Definition float_exact (f : float) : option Z :=
  match Prim2SF f with
  | S754_zero _ => Some 0
  | S754_finite sign m e =>
      let v :=
        if Z.leb 0 e then Some (Zpos m * 2 ^ e)
        else if Z.eqb (Zpos m mod 2 ^ (- e)) 0 then Some (Zpos m / 2 ^ (- e))
        else None in
      if sign then fmap Z.opp v else v
  | _ => None
  end.

(** ** Rows of [app/models.py] *)

(** [uuid.UUID] values are 128-bit integers. *)
Definition UUID : Type := N.

Inductive UserRole : Type := ADMIN | FARMER | BUYER.

Definition role_value (r : UserRole) : string :=
  match r with ADMIN => "admin" | FARMER => "farmer" | BUYER => "buyer" end.

#[global] Instance UserRole_eq_dec : EqDecision UserRole.
Proof. solve_decision. Defined.

Record User : Type := mkUser {
  user_id : UUID;
  user_email : string;
  user_password_hash : string;
  user_role : UserRole;
  user_is_active : bool;
  user_full_name : option string;
  user_phone_number : option string;
  user_location : option string;
  user_created_at : Z }.

Record Farmer : Type := mkFarmer {
  farmer_id : Z;
  farmer_user_id : UUID;
  farmer_farm_name : string;
  farmer_location : string;
  farmer_phone_number : string;
  farmer_is_verified : bool;
  farmer_created_at : Z }.

Record Buyer : Type := mkBuyer {
  buyer_id : Z;
  buyer_user_id : UUID;
  buyer_delivery_address : option string;
  buyer_preferred_contact : option string;
  buyer_created_at : Z }.

Record Animal : Type := mkAnimal {
  animal_id : Z;
  animal_farmer_id : Z;
  animal_species : string;
  animal_breed : option string;
  animal_age : option Z;
  animal_weight : option float;
  animal_price : Z;            (* Numeric(10, 2), in hundredths *)
  animal_status : option string;
  animal_image_url : option string }.

Record Order : Type := mkOrder {
  order_id : Z;
  order_buyer_id : Z;
  order_items : json;
  order_total_amount : Z;      (* Numeric(10, 2), in hundredths *)
  order_status : option string;
  order_payment_method : option string;
  order_created_at : Z }.

Record Wishlist : Type := mkWishlist {
  wishlist_id : Z;
  wishlist_user_id : UUID;
  wishlist_animal_id : Z;
  wishlist_created_at : Z }.

Record Tables : Type := mkTables {
  users : list User;
  farmers : list Farmer;
  buyers : list Buyer;
  animals : list Animal;
  orders : list Order;
  wishlists : list Wishlist }.

(** Objects handed to [db.session.add], before the database has given them
    a primary key.  Payload-derived columns are still the JSON values the
    handler passed in; they are bound to their column types at flush. *)
Inductive NewRow : Type :=
  | NewUser (email : json) (password_hash : string) (role : UserRole)
            (full_name phone_number location : json)
  | NewFarmer (user : UUID) (farm_name location phone_number : json)
  | NewBuyer (user : UUID) (delivery_address preferred_contact : json)
  | NewOrder (buyer : Z) (items total_amount status payment_method : json)
  | NewWishlist (user : UUID) (animal : json).

(** Work the session holds until the next flush. *)
Inductive Pending : Type :=
  | PAdd (r : NewRow)
  | PDelete (w : Wishlist).

Inductive Row : Type :=
  | RUser (u : User)
  | RFarmer (f : Farmer)
  | RBuyer (b : Buyer)
  | ROrder (o : Order)
  | RWishlist (w : Wishlist).

(** ** The session *)

Inductive Table : Type := TUsers | TFarmers | TBuyers | TAnimals | TOrders | TWishlists.

Inductive DbOp : Type :=
  | Select (t : Table)
  | Insert (t : Table)
  | Delete (t : Table)
  | Commit
  | Rollback.

(** Autoincrement counters are sequences: a rollback does not rewind them. *)
Record Seqs : Type := mkSeqs {
  farmers_seq : Z;
  buyers_seq : Z;
  orders_seq : Z;
  wishlists_seq : Z }.

Record Session : Type := mkSession {
  committed : Tables;          (* what other requests can see *)
  txn : Tables;                (* this request's transaction *)
  pending : list Pending;       (* added, not yet flushed *)
  seqs : Seqs;
  log : list DbOp }.           (* statements sent, most recent first *)

(** What the environment supplies to one request. *)
Record Env : Type := mkEnv {
  uuid4 : UUID;                (* uuid.uuid4() *)
  utcnow : Z;                  (* datetime.utcnow() *)
  salt : string;               (* drawn by generate_password_hash *)
  db_fault : bool }.           (* the COMMIT itself fails *)

Inductive exn : Type :=
  | ValueError | TypeError | AttributeError | KeyError
  | IntegrityError | DataError | OperationalError.

Inductive Res (A : Type) : Type :=
  | Ok (a : A)
  | Raise (e : exn).
Arguments Ok {A} a.
Arguments Raise {A} e.

Definition M (A : Type) : Type := Session -> Res A * Session.

Definition ret {A} (a : A) : M A := fun s => (Ok a, s).
Definition raise {A} (e : exn) : M A := fun s => (Raise e, s).
Definition bind {A B} (m : M A) (k : A -> M B) : M B :=
  fun s => match m s with
           | (Ok a, s') => k a s'
           | (Raise e, s') => (Raise e, s')
           end.
(** [try: m except Exception: h]. *)
Definition try_except {A} (m : M A) (h : exn -> M A) : M A :=
  fun s => match m s with
           | (Ok a, s') => (Ok a, s')
           | (Raise e, s') => h e s'
           end.

#[global] Instance M_ret : MRet M := @ret.
#[global] Instance M_bind : MBind M := fun A B k m => bind m k.

Definition get_session : M Session := fun s => (Ok s, s).
Definition log_op (op : DbOp) : M unit :=
  fun s => (Ok tt, mkSession (committed s) (txn s) (pending s) (seqs s) (op :: log s)).

(** ** A small database and stand-ins for the collaborators

    Used to run the handlers on concrete requests. *)

Module Sample.

Definition uuid_parse (s : string) : option UUID :=
  if String.eqb s "0000000a-0000-4000-8000-000000000000" then Some 10%N
  else if String.eqb s "0000000b-0000-4000-8000-000000000000" then Some 11%N
  else if String.eqb s "0000000c-0000-4000-8000-000000000000" then Some 12%N
  else None.

Definition uuid_str (u : UUID) : string := pretty u.
Definition generate_password_hash (salt pw : string) : string := "plain$" ++ pw.
Definition check_password_hash (h pw : string) : bool := String.eqb h ("plain$" ++ pw).

Fixpoint digits (s : string) (acc : Z) : option Z :=
  match s with
  | EmptyString => Some acc
  | String c s =>
      let n := Z.of_nat (nat_of_ascii c) in
      if Z.leb 48 n && Z.leb n 57 then digits s (10 * acc + (n - 48)) else None
  end.

Definition pg_text (j : json) : option string :=
  match j with JInt n => Some (pretty n) | _ => None end.
(** A number with a fraction is rounded to the nearest integer, halves
    away from zero. *)
Definition round_float (f : float) : option Z :=
  match Prim2SF f with
  | S754_zero _ => Some 0
  | S754_finite sign m e =>
      let n :=
        if Z.leb 0 e then Zpos m * 2 ^ e
        else (2 * Zpos m + 2 ^ (- e)) / (2 * 2 ^ (- e)) in
      Some (if sign then - n else n)
  | _ => None
  end.

Definition int4 (n : Z) : option Z :=
  if Z.leb (-2147483648) n && Z.leb n 2147483647 then Some n else None.

Definition pg_int (j : json) : option Z :=
  match j with
  | JStr (String c s) => digits (String c s) 0 ≫= int4
  | JFloat f => round_float f ≫= int4
  | _ => None
  end.
Definition pg_numeric (j : json) : option Z := None.
Definition fsum (l : list float) : float := fold_right PrimFloat.add 0%float l.
Definition round2 (f : float) : float := f.
Definition str_exn (e : exn) : string := "database error".
Definition isoformat (t : Z) : string := pretty t.
Definition create_access_token (sub : string) (role : UserRole) : string := "token." ++ sub.

Definition alice : User :=
  mkUser 10%N "alice@example.com" "plain$alicepw1" BUYER true (Some "Alice") None None 100.
Definition bob : User :=
  mkUser 11%N "bob@example.com" "plain$bobpw123" BUYER true (Some "Bob") None None 101.
Definition carol : User :=
  mkUser 12%N "carol@example.com" "plain$carolpw1" FARMER true None (Some "0711") (Some "Nakuru") 102.

Definition cow : Animal :=
  mkAnimal 5 1 "Cow" (Some "Boran") (Some 36) None 18500000 (Some "available") None.

Definition tables : Tables :=
  mkTables [alice; bob; carol]
    [mkFarmer 1 12%N "Carol's Farm" "Nakuru" "0711" false 102]
    [mkBuyer 1 10%N None None 100; mkBuyer 2 11%N None None 101]
    [cow]
    [mkOrder 7 2 (JArr []) 18500000 (Some "paid") (Some "mpesa") 110]
    [mkWishlist 3 11%N 5 111].

Definition session : Session := mkSession tables tables [] (mkSeqs 2 3 8 4) [].

Definition env : Env := mkEnv 13%N 200 "salt" false.

Definition alice_sub : string := "0000000a-0000-4000-8000-000000000000".
Definition carol_sub : string := "0000000c-0000-4000-8000-000000000000".

Definition order_payload : gmap string json :=
  list_to_map [("items", JArr [JObj [("animal_id", JInt 5); ("name", JStr "Cow");
                                     ("price", JInt 185000)]]);
               ("total_amount", JInt 185000);
               ("buyer_id", JInt 2)].

Definition buyer_signup : gmap string json :=
  list_to_map [("email", JStr "dan@example.com"); ("password", JStr "pw123456");
               ("role", JStr "Buyer")].

Definition farmer_signup_no_phone : gmap string json :=
  list_to_map [("email", JStr "eve@example.com"); ("password", JStr "pw123456");
               ("role", JStr "farmer"); ("farm_name", JStr "Eve's Farm");
               ("location", JStr "Eldoret")].

Definition alice_again : gmap string json :=
  list_to_map [("email", JStr "alice@example.com"); ("password", JStr "pw123456");
               ("role", JStr "buyer")].


Definition wish_cow : gmap string json := list_to_map [("animal_id", JInt 5)].

Definition wish_cow_roughly : gmap string json :=
  list_to_map [("animal_id", JFloat 4.75%float)].

Definition login_unknown : gmap string json :=
  list_to_map [("email", JStr "nobody@example.com"); ("password", JStr "whatever")].

Definition login_wrong_password : gmap string json :=
  list_to_map [("email", JStr "alice@example.com"); ("password", JStr "not-alices")].

Definition login_unknown_no_password : gmap string json :=
  list_to_map [("email", JStr "nobody@example.com")].

Definition login_alice_no_password : gmap string json :=
  list_to_map [("email", JStr "alice@example.com")].

Definition bob_sub : string := "0000000b-0000-4000-8000-000000000000".

Definition bobs_buyer : Buyer := mkBuyer 2 11%N None None 101.
Definition bobs_order : Order :=
  mkOrder 7 2 (JArr []) 18500000 (Some "paid") (Some "mpesa") 110.
Definition bobs_wish : Wishlist := mkWishlist 3 11%N 5 111.

Definition wish_unicorn : gmap string json := list_to_map [("animal_id", JInt 99)].

Definition signup_without_role : gmap string json :=
  list_to_map [("email", JStr "fay@example.com"); ("password", JStr "pw123456")].

Definition signup_as_admin : gmap string json :=
  list_to_map [("email", JStr "fay@example.com"); ("password", JStr "pw123456");
               ("role", JStr "Admin")].

Definition farmer_signup_carols_phone : gmap string json :=
  list_to_map [("email", JStr "gus@example.com"); ("password", JStr "pw123456");
               ("role", JStr "farmer"); ("farm_name", JStr "Gus's Farm");
               ("location", JStr "Kisumu"); ("phone_number", JStr "0711")].


End Sample.

(** ** The database: column binding, constraints, flush, commit, rollback *)

Section Farmart.

(** Collaborators outside the repository. *)

(** [uuid.UUID(s)]; [None] when it raises [ValueError]. *)
Variable uuid_parse : string -> option UUID.
(** [str(u)] for a UUID. *)
Variable uuid_str : UUID -> string.
(** werkzeug's [generate_password_hash], with the salt it draws made explicit. *)
Variable generate_password_hash : string -> string -> string.
(** werkzeug's [check_password_hash pwhash password]. *)
Variable check_password_hash : string -> string -> bool.
(** The database is PostgreSQL ([models.py] imports its UUID type), reached
    through SQLAlchemy's default driver, which sends every parameter as a
    literal of its own Python type: a comparison in a WHERE clause sees
    the value as the client sent it, an INSERT casts it to the column.

    What the database makes of a value that is not of the column's own
    type when it is written to the column, [None] when it refuses it:
    [pg_text] for a number or boolean put in a text column, [pg_int] for
    the text of an integer and for a number with a fraction put in an
    integer column, [pg_numeric] for what is put in a Numeric column. *)
Variable pg_text : json -> option string.
Variable pg_int : json -> option Z.
Variable pg_numeric : json -> option Z.
(** [sum] over a non-empty sequence of floats, and [round(x, 2)]. *)
Variable fsum : list float -> float.
Variable round2 : float -> float.

(** A parameter compared with a text column in a WHERE clause: [Some None]
    is SQL NULL, [None] an error.  Only a string can be compared with
    text; a number or a boolean has no such operator.  A string holding
    NUL is compared like any other: it equals no value a text column can
    hold (see [store_text]).  The driver's refusal of such a parameter is
    not modelled here, and the properties about a parameter that matches
    no row take it to be [nul_free]. *)
Definition bind_text (j : json) : option (option string) :=
  match j with
  | JNull => Some None
  | JStr s => Some (Some s)
  | _ => None
  end.

(** A value written to a text column by an INSERT.  A string holding NUL
    is refused by the driver; other values are cast by the database. *)
Definition store_text (j : json) : option (option string) :=
  match j with
  | JNull => Some None
  | JStr s => if nul_free s then Some (Some s) else None
  | _ => fmap Some (pg_text j)
  end.

Definition json_nul_free (j : json) : bool :=
  match j with JStr s => nul_free s | _ => true end.

(** The error of a refused INSERT: [ValueError] from the driver when a
    string holds NUL, otherwise the database's [DataError]. *)
Definition refusal (js : list json) : exn :=
  if forallb json_nul_free js then DataError else ValueError.

Definition int4_ok (n : Z) : bool := Z.leb (-2147483648) n && Z.leb n 2147483647.

(** A value written to an integer column by an INSERT, and a route string
    compared with one: an integer in range is itself, a float that is an
    integer is that integer, the text of an integer is parsed and a number
    with a fraction is rounded, both by the database; booleans, lists and
    objects are refused. *)
Definition bind_int (j : json) : option (option Z) :=
  match j with
  | JNull => Some None
  | JInt n => if int4_ok n then Some (Some n) else None
  | JFloat f =>
      match float_exact f with
      | Some n => if int4_ok n then Some (Some n) else None
      | None => fmap Some (pg_int j)
      end
  | JStr _ => fmap Some (pg_int j)
  | _ => None
  end.

(** [col = param] for an integer column and a JSON parameter of a WHERE
    clause, as a test on the column's value, [None] an error.  The
    parameter is compared as the number it is: an integer of any size, and
    a float, which equals a stored integer only when it is that integer. *)
Definition match_int (j : json) : option (Z -> bool) :=
  match j with
  | JNull => Some (fun _ => false)
  | JInt n => Some (fun col => bool_decide (col = n))
  | JFloat f => Some (fun col => bool_decide (float_exact f = Some col))
  | JStr _ => fmap (fun n col => bool_decide (col = n)) (pg_int j)
  | _ => None
  end.

(** Numeric(10, 2), held in hundredths. *)
Definition numeric_ok (c : Z) : bool := Z.ltb (-10000000000) c && Z.ltb c 10000000000.

Definition bind_numeric (j : json) : option (option Z) :=
  match j with
  | JNull => Some None
  | JInt n => if numeric_ok (100 * n) then Some (Some (100 * n)) else None
  | _ => match pg_numeric j with
         | Some c => if numeric_ok c then Some (Some c) else None
         | None => None
         end
  end.

(** [String(n)] columns hold at most [n] characters. *)
Definition fits (n : nat) (s : string) : bool := Nat.leb (utf8_length s) n.
Definition fits_opt (n : nat) (s : option string) : bool :=
  match s with None => true | Some s => fits n s end.

(** [col = param], where a NULL parameter is rendered [col IS NULL] and
    matches no row of a NOT NULL column. *)
Definition eq_param `{EqDecision A} (col : A) (param : option A) : bool :=
  match param with
  | Some v => bool_decide (col = v)
  | None => false
  end.

Definition has_user (t : Tables) (u : UUID) : bool :=
  bool_decide (u ∈ map user_id (users t)).
Definition has_buyer (t : Tables) (b : Z) : bool :=
  bool_decide (b ∈ map buyer_id (buyers t)).
Definition has_animal (t : Tables) (a : Z) : bool :=
  bool_decide (a ∈ map animal_id (animals t)).

Definition set_users (t : Tables) l := mkTables l (farmers t) (buyers t) (animals t) (orders t) (wishlists t).
Definition set_farmers (t : Tables) l := mkTables (users t) l (buyers t) (animals t) (orders t) (wishlists t).
Definition set_buyers (t : Tables) l := mkTables (users t) (farmers t) l (animals t) (orders t) (wishlists t).
Definition set_orders (t : Tables) l := mkTables (users t) (farmers t) (buyers t) (animals t) l (wishlists t).
Definition set_wishlists (t : Tables) l := mkTables (users t) (farmers t) (buyers t) (animals t) (orders t) l.

(** One INSERT: the column defaults of [models.py], then its NOT NULL,
    UNIQUE, FOREIGN KEY and length constraints.  [id] is the value drawn
    from the table's sequence. *)
Definition insert_row (env : Env) (id : Z) (r : NewRow) (t : Tables) : exn + Row * Tables :=
  match r with
  | NewUser email pw role full_name phone location =>
      match store_text email, store_text full_name, store_text phone, store_text location with
      | Some e, Some fn, Some ph, Some loc =>
          match e with
          | None => inl IntegrityError
          | Some e =>
              if negb (fits 120 e && fits 256 pw && fits_opt 100 fn
                       && fits_opt 20 ph && fits_opt 255 loc) then inl DataError
              else if bool_decide (e ∈ map user_email (users t))
                      || has_user t (uuid4 env) then inl IntegrityError
              else let u := mkUser (uuid4 env) e pw role true fn ph loc (utcnow env) in
                   inr (RUser u, set_users t (users t ++ [u]))
          end
      | _, _, _, _ => inl (refusal [email; full_name; phone; location])
      end
  | NewFarmer user farm_name location phone =>
      match store_text farm_name, store_text location, store_text phone with
      | Some (Some fn), Some (Some loc), Some (Some ph) =>
          if negb (fits 100 fn && fits 255 loc && fits 20 ph) then inl DataError
          else if bool_decide (ph ∈ map farmer_phone_number (farmers t))
                  || negb (has_user t user) then inl IntegrityError
          else let f := mkFarmer id user fn loc ph false (utcnow env) in
               inr (RFarmer f, set_farmers t (farmers t ++ [f]))
      | Some _, Some _, Some _ => inl IntegrityError
      | _, _, _ => inl (refusal [farm_name; location; phone])
      end
  | NewBuyer user address contact =>
      match store_text address, store_text contact with
      | Some a, Some c =>
          if negb (fits_opt 50 c) then inl DataError
          else if negb (has_user t user) then inl IntegrityError
          else let b := mkBuyer id user a c (utcnow env) in
               inr (RBuyer b, set_buyers t (buyers t ++ [b]))
      | _, _ => inl (refusal [address; contact])
      end
  | NewOrder buyer items total status method =>
      match bind_numeric total, store_text status, store_text method with
      | Some (Some c), Some st, Some pm =>
          (* a column left at None takes its declared default *)
          let st := default "pending" st in
          let pm := default "mpesa" pm in
          if negb (fits 20 st && fits 50 pm) then inl DataError
          else if negb (has_buyer t buyer) then inl IntegrityError
          else let o := mkOrder id buyer items c (Some st) (Some pm) (utcnow env) in
               inr (ROrder o, set_orders t (orders t ++ [o]))
      | Some None, Some _, Some _ => inl IntegrityError
      | _, _, _ => inl (refusal [total; status; method])
      end
  | NewWishlist user animal =>
      match bind_int animal with
      | Some (Some a) =>
          if negb (has_user t user && has_animal t a) then inl IntegrityError
          else let w := mkWishlist id user a (utcnow env) in
               inr (RWishlist w, set_wishlists t (wishlists t ++ [w]))
      | Some None => inl IntegrityError
      | None => inl DataError
      end
  end.

Definition table_of (r : NewRow) : Table :=
  match r with
  | NewUser _ _ _ _ _ _ => TUsers
  | NewFarmer _ _ _ _ => TFarmers
  | NewBuyer _ _ _ => TBuyers
  | NewOrder _ _ _ _ _ => TOrders
  | NewWishlist _ _ => TWishlists
  end.

(** [nextval] of the table's sequence; users take their key from [uuid4]. *)
Definition next_id (r : NewRow) (q : Seqs) : Z * Seqs :=
  match r with
  | NewUser _ _ _ _ _ _ => (0, q)
  | NewFarmer _ _ _ _ =>
      (farmers_seq q, mkSeqs (farmers_seq q + 1) (buyers_seq q) (orders_seq q) (wishlists_seq q))
  | NewBuyer _ _ _ =>
      (buyers_seq q, mkSeqs (farmers_seq q) (buyers_seq q + 1) (orders_seq q) (wishlists_seq q))
  | NewOrder _ _ _ _ _ =>
      (orders_seq q, mkSeqs (farmers_seq q) (buyers_seq q) (orders_seq q + 1) (wishlists_seq q))
  | NewWishlist _ _ =>
      (wishlists_seq q, mkSeqs (farmers_seq q) (buyers_seq q) (orders_seq q) (wishlists_seq q + 1))
  end.

(** A violated constraint is found after the row's key was drawn from its
    sequence; a refused value is rejected before. *)
Definition draws (e : exn) : bool :=
  match e with IntegrityError => true | _ => false end.

(** The driver's own refusal (a string holding NUL) sends no statement. *)
Definition sent (e : exn) : bool :=
  match e with ValueError => false | _ => true end.

(** Flush the pending work in order.  A failing statement aborts the
    transaction: the session falls back to the committed rows and drops
    what was pending, then the error propagates. *)
Fixpoint flush_pending (env : Env) (ps : list Pending) (t : Tables) (q : Seqs)
    (l : list DbOp) : (exn + list Row * Tables) * Seqs * list DbOp :=
  match ps with
  | [] => (inr ([], t), q, l)
  | PAdd r :: ps =>
      let '(id, q') := next_id r q in
      match insert_row env id r t with
      | inl e => (inl e, if draws e then q' else q,
                  if sent e then Insert (table_of r) :: l else l)
      | inr (row, t') =>
          match flush_pending env ps t' q' (Insert (table_of r) :: l) with
          | (inr (rows, t''), q'', l') => (inr (row :: rows, t''), q'', l')
          | failed => failed
          end
      end
  | PDelete w :: ps =>
      flush_pending env ps
        (set_wishlists t (filter (fun x => wishlist_id x ≠ wishlist_id w) (wishlists t)))
        q (Delete TWishlists :: l)
  end.

Definition session_flush (env : Env) : M (list Row) :=
  fun s =>
    match flush_pending env (pending s) (txn s) (seqs s) (log s) with
    | (inr (rows, t), q, l) => (Ok rows, mkSession (committed s) t [] q l)
    | (inl e, q, l) => (Raise e, mkSession (committed s) (committed s) [] q l)
    end.

(** [db.session.add(obj)] and [db.session.delete(obj)]. *)
Definition session_add (r : NewRow) : M unit :=
  fun s => (Ok tt, mkSession (committed s) (txn s) (pending s ++ [PAdd r]) (seqs s) (log s)).
Definition session_delete (w : Wishlist) : M unit :=
  fun s => (Ok tt, mkSession (committed s) (txn s) (pending s ++ [PDelete w]) (seqs s) (log s)).

(** [db.session.commit()]: flush, then COMMIT.  Returns the rows inserted
    by its flush, as the handler's objects are refreshed from them. *)
Definition commit_txn (env : Env) : M unit :=
  fun s =>
    if db_fault env
    then (Raise OperationalError,
          mkSession (committed s) (committed s) [] (seqs s) (Commit :: log s))
    else (Ok tt, mkSession (txn s) (txn s) [] (seqs s) (Commit :: log s)).

Definition session_commit (env : Env) : M (list Row) :=
  rows ← session_flush env;
  _ ← commit_txn env;
  mret rows.

(** [db.session.rollback()]. *)
Definition session_rollback : M unit :=
  fun s => (Ok tt, mkSession (committed s) (committed s) [] (seqs s) (Rollback :: log s)).

(** [Model.query.filter_by(...)]: autoflush, then one SELECT over the
    transaction's view of the table. *)
Definition query {A} (env : Env) (tbl : Table) (rows : Tables -> list A)
    (p : A -> bool) : M (list A) :=
  _ ← session_flush env;
  _ ← log_op (Select tbl);
  s ← get_session;
  mret (List.filter p (rows (txn s))).

(** [.first()] and [.all()]. *)
Definition first {A} (l : list A) : option A := head l.

(** A bound query parameter, or the error the driver raises for it. *)
Definition param {A} (b : option (option A)) : M (option A) :=
  match b with
  | Some v => mret v
  | None => raise DataError
  end.

(** A comparison of a WHERE clause, or the error the database raises for it. *)
Definition comparing {A} (b : option (A -> bool)) : M (A -> bool) :=
  match b with
  | Some p => mret p
  | None => raise DataError
  end.

(** ** Responses *)

(** [str(e)] of a caught exception, [datetime.isoformat()] and
    [create_access_token(identity, additional_claims={"role": ...})]. *)
Variable str_exn : exn -> string.
Variable isoformat : Z -> string.
Variable create_access_token : string -> UserRole -> string.

Record Reply : Type := mkReply { status : Z; body : json }.

(** [jsonify({k: v}), code]. *)
Definition reply1 (code : Z) (k v : string) : M Reply :=
  mret (mkReply code (JObj [(k, JStr v)])).

Definition opt_str (s : option string) : json :=
  match s with Some s => JStr s | None => JNull end.

Definition float_of_Z (z : Z) : float :=
  match z with
  | Z0 => 0%float
  | Zpos _ => PrimFloat.of_uint63 (Uint63.of_Z z)
  | Zneg _ => PrimFloat.opp (PrimFloat.of_uint63 (Uint63.of_Z (- z)))
  end.

(** [float(d)] for a Numeric(10, 2) value held in hundredths. *)
Definition float_of_numeric (c : Z) : float :=
  PrimFloat.div (float_of_Z c) 100%float.

Definition str_int (n : Z) : string := pretty n.

(** [Order.to_dict]. *)
Definition order_to_dict (o : Order) : json :=
  JObj [("id", JStr (str_int (order_id o)));
        ("buyer_id", JStr (str_int (order_buyer_id o)));
        ("items", order_items o);
        ("total_amount", JFloat (float_of_numeric (order_total_amount o)));
        ("status", opt_str (order_status o));
        ("payment_method", opt_str (order_payment_method o));
        ("created_at", JStr (isoformat (order_created_at o)))].

(** [Animal.to_dict]. *)
Definition animal_to_dict (a : Animal) : json :=
  JObj [("id", JStr (str_int (animal_id a)));
        ("species", JStr (animal_species a));
        ("breed", opt_str (animal_breed a));
        ("age", from_option JInt JNull (animal_age a));
        ("weight", from_option JFloat JNull (animal_weight a));
        ("price", JFloat (float_of_numeric (animal_price a)));
        ("status", opt_str (animal_status a));
        ("image_url", opt_str (animal_image_url a))].

(** [Wishlist.to_dict], given the row its [animal] relationship loaded. *)
Definition wishlist_to_dict (w : Wishlist) (a : option Animal) : json :=
  JObj [("id", JStr (str_int (wishlist_id w)));
        ("user_id", JStr (uuid_str (wishlist_user_id w)));
        ("animal_id", JStr (str_int (wishlist_animal_id w)));
        ("animal", from_option animal_to_dict JNull a);
        ("created_at", JStr (isoformat (wishlist_created_at w)))].

Definition invalid_user_id : M Reply := reply1 400 "error" "Invalid user ID format".
Definition no_buyer_profile : M Reply :=
  reply1 404 "message" "No buyer profile found for this user".

(** [Buyer.query.filter_by(user_id=current_user_id).first()]. *)
Definition find_buyer (env : Env) (uid : UUID) : M (option Buyer) :=
  bs ← query env TBuyers buyers (fun b => bool_decide (buyer_user_id b = uid));
  mret (first bs).

(** ** [app/orders/routes.py] *)

Definition get_my_orders (env : Env) (sub : string) : M Reply :=
  match uuid_parse sub with
  | None => invalid_user_id
  | Some current_user_id =>
      buyer ← find_buyer env current_user_id;
      match buyer with
      | None => no_buyer_profile
      | Some buyer =>
          os ← query env TOrders orders
                 (fun o => bool_decide (order_buyer_id o = buyer_id buyer));
          mret (mkReply 200 (JArr (map order_to_dict os)))
      end
  end.

(** The handler's [order] object after the commit: the row its flush wrote. *)
Definition refreshed_order (rows : list Row) : M Order :=
  match rows with
  | [ROrder o] => mret o
  | _ => raise AttributeError
  end.

(** [data] is what [request.get_json()] returns: [None] for the JSON body
    [null], [Some d] for a JSON object.  For a request without a JSON body
    [get_json] does not return: the framework aborts the request with 415
    (400 for a body that does not parse), after the Buyer row was looked
    up; such a request is no value of [data]. *)
Definition create_order (env : Env) (sub : string)
    (data : option (gmap string json)) : M Reply :=
  match uuid_parse sub with
  | None => invalid_user_id
  | Some current_user_id =>
      buyer ← find_buyer env current_user_id;
      match buyer with
      | None => no_buyer_profile
      | Some buyer =>
          match data with
          | Some d =>
              if bool_decide (d = ∅) || negb (dict_has d "items")
                 || negb (dict_has d "total_amount")
              then reply1 400 "message" "Missing required fields: items, total_amount"
              else
                _ ← session_add
                      (NewOrder (buyer_id buyer)
                         (dict_get d "items")
                         (dict_get d "total_amount")
                         (dict_get_default d "status" (JStr "paid"))
                         (dict_get_default d "payment_method" (JStr "mpesa")));
                rows ← session_commit env;
                order ← refreshed_order rows;
                mret (mkReply 201
                        (JObj [("message", JStr "Order created successfully");
                               ("order", order_to_dict order)]))
          | None => reply1 400 "message" "Missing required fields: items, total_amount"
          end
      end
  end.

Definition get_order (env : Env) (sub : string) (order_id_str : string) : M Reply :=
  match uuid_parse sub with
  | None => invalid_user_id
  | Some current_user_id =>
      buyer ← find_buyer env current_user_id;
      match buyer with
      | None => no_buyer_profile
      | Some buyer =>
          oid ← param (bind_int (JStr order_id_str));
          os ← query env TOrders orders
                 (fun o => eq_param (order_id o) oid
                           && bool_decide (order_buyer_id o = buyer_id buyer));
          match first os with
          | None => reply1 404 "message" "Order not found or access denied"
          | Some order => mret (mkReply 200 (order_to_dict order))
          end
      end
  end.

(** [sum(float(o.total_amount) for o in orders)], then [round(_, 2)]:
    over no orders the sum is the integer 0 and stays one. *)
Definition total_spent (os : list Order) : json :=
  match os with
  | [] => JInt 0
  | _ => JFloat (round2 (fsum (map (fun o => float_of_numeric (order_total_amount o)) os)))
  end.

Definition get_order_stats (env : Env) (sub : string) : M Reply :=
  match uuid_parse sub with
  | None => invalid_user_id
  | Some current_user_id =>
      buyer ← find_buyer env current_user_id;
      match buyer with
      | None => mret (mkReply 200 (JObj [("total_orders", JInt 0); ("total_spent", JInt 0)]))
      | Some buyer =>
          os ← query env TOrders orders
                 (fun o => bool_decide (order_buyer_id o = buyer_id buyer));
          mret (mkReply 200
                  (JObj [("total_orders", JInt (Z.of_nat (length os)));
                         ("total_spent", total_spent os)]))
      end
  end.

(** ** [app/wishlist/routes.py] *)

(** The [animal] relationship of a wishlist row. *)
Definition load_animal (env : Env) (w : Wishlist) : M (option Animal) :=
  l ← query env TAnimals animals (fun a => bool_decide (animal_id a = wishlist_animal_id w));
  mret (first l).

Definition get_my_wishlist (env : Env) (sub : string) : M Reply :=
  match uuid_parse sub with
  | None => invalid_user_id
  | Some current_user_id =>
      (* joinedload: the animals come with the same SELECT *)
      ws ← query env TWishlists wishlists
             (fun w => bool_decide (wishlist_user_id w = current_user_id));
      s ← get_session;
      mret (mkReply 200
              (JArr (map (fun w => wishlist_to_dict w
                            (first (List.filter
                               (fun a => bool_decide (animal_id a = wishlist_animal_id w))
                               (animals (txn s))))) ws)))
  end.

(** The handler's [wishlist_item] after the commit. *)
Definition refreshed_wishlist (rows : list Row) : M Wishlist :=
  match rows with
  | [RWishlist w] => mret w
  | _ => raise AttributeError
  end.

(** [data] is what [request.get_json()] returns: [None] for the JSON body
    [null], [Some d] for a JSON object.  For a request without a JSON body
    [get_json] does not return: the framework aborts the request with 415
    (400 for a body that does not parse); such a request is no value of
    [data]. *)
Definition add_to_wishlist (env : Env) (sub : string)
    (data : option (gmap string json)) : M Reply :=
  match uuid_parse sub with
  | None => invalid_user_id
  | Some current_user_id =>
      match data with
      | Some d =>
          if bool_decide (d = ∅) || negb (dict_has d "animal_id")
          then reply1 400 "message" "Missing required field: animal_id"
          else
            let animal := dict_get d "animal_id" in
            same ← comparing (match_int animal);
            existing ← query env TWishlists wishlists
                         (fun w => bool_decide (wishlist_user_id w = current_user_id)
                                   && same (wishlist_animal_id w));
            match first existing with
            | Some _ => reply1 200 "message" "Item already in wishlist"
            | None =>
                r ← try_except
                      (_ ← session_add (NewWishlist current_user_id animal);
                       rows ← session_commit env;
                       mret (inr rows))
                      (fun e =>
                         _ ← session_rollback;
                         mret (inl (mkReply 500
                                      (JObj [("error", JStr "Backend Crash");
                                             ("details", JStr (str_exn e))]))));
                match r with
                | inl failed => mret failed
                | inr rows =>
                    item ← refreshed_wishlist rows;
                    animal ← load_animal env item;
                    mret (mkReply 201
                            (JObj [("message", JStr "Added to wishlist");
                                   ("item", wishlist_to_dict item animal)]))
                end
            end
      | None => reply1 400 "message" "Missing required field: animal_id"
      end
  end.

Definition remove_from_wishlist (env : Env) (sub : string) (item_id : string) : M Reply :=
  match uuid_parse sub with
  | None => invalid_user_id
  | Some current_user_id =>
      iid ← param (bind_int (JStr item_id));
      items ← query env TWishlists wishlists
                (fun w => eq_param (wishlist_id w) iid
                          && bool_decide (wishlist_user_id w = current_user_id));
      match first items with
      | None => reply1 404 "message" "Wishlist item not found or access denied"
      | Some item =>
          _ ← session_delete item;
          _ ← session_commit env;
          reply1 200 "message" "Removed from wishlist"
      end
  end.

Definition check_in_wishlist (env : Env) (sub : string) (animal_id_str : string) : M Reply :=
  match uuid_parse sub with
  | None => invalid_user_id
  | Some current_user_id =>
      aid ← param (bind_int (JStr animal_id_str));
      items ← query env TWishlists wishlists
                (fun w => bool_decide (wishlist_user_id w = current_user_id)
                          && eq_param (wishlist_animal_id w) aid);
      mret (mkReply 200 (JObj [("in_wishlist", JBool (bool_decide (is_Some (first items))))]))
  end.

Definition get_wishlist_count (env : Env) (sub : string) : M Reply :=
  match uuid_parse sub with
  | None => invalid_user_id
  | Some current_user_id =>
      items ← query env TWishlists wishlists
                (fun w => bool_decide (wishlist_user_id w = current_user_id));
      mret (mkReply 200 (JObj [("count", JInt (Z.of_nat (length items)))]))
  end.

(** ** [app/auth/views.py] *)

(** [str.lower] on ASCII letters, the only ones that reach "farmer" or "buyer". *)
Definition lower_ascii (c : ascii) : ascii :=
  let n := nat_of_ascii c in
  if Nat.leb 65 n && Nat.leb n 90 then ascii_of_nat (n + 32) else c.

Fixpoint lower (s : string) : string :=
  match s with
  | EmptyString => EmptyString
  | String c s => String (lower_ascii c) (lower s)
  end.

(** [role in ["farmer", "buyer"]], as the [UserRole] member the string equals. *)
Definition role_of (role : string) : option UserRole :=
  if String.eqb role "farmer" then Some FARMER
  else if String.eqb role "buyer" then Some BUYER
  else None.

(** [role.capitalize()]. *)
Definition capitalized (r : UserRole) : string :=
  match r with ADMIN => "Admin" | FARMER => "Farmer" | BUYER => "Buyer" end.

(** Step 3 of [register]: [Some reply] is an early return. *)
Definition register_profile (env : Env) (d : gmap string json) (role : UserRole)
    (new_user_id : UUID) : M (option Reply) :=
  match role with
  | FARMER =>
      if negb (forallb truthy [dict_get d "farm_name"; dict_get d "location";
                               dict_get d "phone_number"])
      then
        _ ← session_rollback;
        r ← reply1 400 "error" "Farmers require farm_name, location, and phone_number";
        mret (Some r)
      else
        ph ← param (bind_text (dict_get d "phone_number"));
        taken ← query env TFarmers farmers (fun f => eq_param (farmer_phone_number f) ph);
        match first taken with
        | Some _ =>
            _ ← session_rollback;
            r ← reply1 409 "error" "Phone number already registered";
            mret (Some r)
        | None =>
            _ ← session_add (NewFarmer new_user_id (dict_get d "farm_name")
                               (dict_get d "location") (dict_get d "phone_number"));
            mret None
        end
  | BUYER =>
      _ ← session_add (NewBuyer new_user_id (dict_get d "delivery_address")
                         (dict_get d "preferred_contact"));
      mret None
  | ADMIN => mret None
  end.

(** Steps 2 to 4 of [register], once the email is known to be free. *)
Definition register_user (env : Env) (d : gmap string json) (role : UserRole)
    (pw : string) : M Reply :=
  _ ← session_add
        (NewUser (dict_get d "email") (generate_password_hash (salt env) pw) role
           (dict_get d "full_name") (dict_get d "phone_number")
           (dict_get d "location"));
  _ ← session_flush env;
  (* the key the flush drew for [new_user] *)
  let new_user_id := uuid4 env in
  early ← register_profile env d role new_user_id;
  match early with
  | Some r => mret r
  | None =>
      try_except
        (_ ← session_commit env;
         mret (mkReply 201
                 (JObj [("message", JStr (capitalized role ++ " registered successfully"));
                        ("user_id", JStr (uuid_str new_user_id))])))
        (fun e =>
           _ ← session_rollback;
           reply1 500 "error" (str_exn e))
  end.

Definition register (env : Env) (data : option (gmap string json)) : M Reply :=
  match data with
  | None => raise TypeError
  | Some d =>
      if negb (forallb (dict_has d) ["email"; "password"; "role"])
      then reply1 400 "error" "Missing email, password, or role"
      else
        let email := dict_get d "email" in
        let password := dict_get d "password" in
        match dict_get d "role" with
        | JStr r =>
            match role_of (lower r) with
            | None => reply1 400 "error" "Invalid role. Must be 'farmer' or 'buyer'"
            | Some role =>
                e ← param (bind_text email);
                existing ← query env TUsers users (fun u => eq_param (user_email u) e);
                match first existing with
                | Some _ => reply1 409 "error" "Email already registered"
                | None =>
                    match password with
                    | JStr pw => register_user env d role pw
                    | _ => raise AttributeError
                    end
                end
            end
        | _ => raise AttributeError
        end
  end.

Definition invalid_credentials : M Reply := reply1 401 "error" "Invalid credentials".

Definition user_json (user : User) : list (string * json) :=
  [("id", JStr (uuid_str (user_id user)));
   ("email", JStr (user_email user));
   ("role", JStr (role_value (user_role user)));
   ("full_name", opt_str (user_full_name user));
   ("phone_number", opt_str (user_phone_number user));
   ("location", opt_str (user_location user))].

Definition login (env : Env) (data : option (gmap string json)) : M Reply :=
  match data with
  | None => raise AttributeError
  | Some d =>
      let email := dict_get d "email" in
      let password := dict_get d "password" in
      e ← param (bind_text email);
      found ← query env TUsers users (fun u => eq_param (user_email u) e);
      match first found with
      | Some user =>
          match password with
          | JStr pw =>
              if check_password_hash (user_password_hash user) pw
              then
                let access_token :=
                  create_access_token (uuid_str (user_id user)) (user_role user) in
                mret (mkReply 200
                        (JObj [("message", JStr "Login successful");
                               ("access_token", JStr access_token);
                               ("user", JObj (user_json user))]))
              else invalid_credentials
          | _ => raise AttributeError
          end
      | None => invalid_credentials
      end
  end.

Definition get_current_user (env : Env) (sub : string) : M Reply :=
  match uuid_parse sub with
  | None => invalid_user_id
  | Some user_id_uuid =>
      found ← query env TUsers users (fun u => bool_decide (user_id u = user_id_uuid));
      match first found with
      | None => reply1 404 "error" "User not found"
      | Some user =>
          mret (mkReply 200
                  (JObj (user_json user
                         ++ [("created_at", JStr (isoformat (user_created_at user)))])))
      end
  end.

(** ** Serving a request *)

Inductive Outcome : Type :=
  | Replied (r : Reply)
  | Unhandled (e : exn).      (* the framework answers 500 *)

(** The request ends: whatever the handler left open is rolled back and the
    session is released ([shutdown_session]). *)
Definition teardown (s : Session) : Session :=
  mkSession (committed s) (committed s) [] (seqs s) (log s).

Definition serve (h : M Reply) (s : Session) : Outcome * Session :=
  match h s with
  | (Ok r, s') => (Replied r, teardown s')
  | (Raise e, s') => (Unhandled e, teardown s')
  end.

(** A session between requests. *)
Definition idle (s : Session) : Prop := txn s = committed s ∧ pending s = [].

(** ** Vocabulary of the properties *)

Definition bad_identity : Reply :=
  mkReply 400 (JObj [("error", JStr "Invalid user ID format")]).

(** The caller has no Buyer row. *)
Definition no_buyer (uid : UUID) (t : Tables) : Prop :=
  forall b, b ∈ buyers t -> buyer_user_id b <> uid.

(** The orders a buyer owns. *)
Definition orders_of (b : Buyer) (t : Tables) : list Order :=
  List.filter (fun o => bool_decide (order_buyer_id o = buyer_id b)) (orders t).

(** The caller's Buyer profile, as the locator finds it. *)
Definition buyer_of (uid : UUID) (t : Tables) : option Buyer :=
  first (List.filter (fun b => bool_decide (buyer_user_id b = uid)) (buyers t)).

Definition not_found (msg : string) : Reply := mkReply 404 (JObj [("message", JStr msg)]).

Definition login_refused : Reply := mkReply 401 (JObj [("error", JStr "Invalid credentials")]).

(** A User row and the profile row of its role, both added and tied by the
    user's key; every other table as it was. *)
Definition registered_pair (t t' : Tables) : Prop :=
  exists u,
    users t' = (users t ++ [u])%list
    /\ animals t' = animals t /\ orders t' = orders t /\ wishlists t' = wishlists t
    /\ ((exists f, farmers t' = (farmers t ++ [f])%list /\ farmer_user_id f = user_id u
                    /\ buyers t' = buyers t /\ user_role u = FARMER)
        \/ (exists b, buyers t' = (buyers t ++ [b])%list /\ buyer_user_id b = user_id u
                       /\ farmers t' = farmers t /\ user_role u = BUYER)).

(** All or nothing: the request either committed nothing and did not answer
    201, or committed exactly a user with its profile and answered 201. *)
Definition atomic_outcome (c : Tables) (res : Outcome * Session) : Prop :=
  idle (snd res)
  /\ ((committed (snd res) = c /\ forall r, fst res = Replied r -> status r <> 201)
      \/ (registered_pair c (committed (snd res))
          /\ exists r, fst res = Replied r /\ status r = 201)).

(** The row [create_order] hands to the session for buyer [b]. *)
Definition order_for (b : Buyer) (d : gmap string json) : NewRow :=
  NewOrder (buyer_id b) (dict_get d "items") (dict_get d "total_amount")
    (dict_get_default d "status" (JStr "paid"))
    (dict_get_default d "payment_method" (JStr "mpesa")).

Definition order_created (o : Order) : Reply :=
  mkReply 201 (JObj [("message", JStr "Order created successfully");
                     ("order", order_to_dict o)]).

Definition already_listed : Reply :=
  mkReply 200 (JObj [("message", JStr "Item already in wishlist")]).

(** The caller's stored wishlist entries. *)
Definition wishlist_count (uid : UUID) (t : Tables) : nat :=
  length (List.filter (fun w => bool_decide (wishlist_user_id w = uid)) (wishlists t)).

(** POST /wishlist, once per environment, one request after another. *)
Fixpoint repeat_add (envs : list Env) (sub : string) (data : option (gmap string json))
    (s : Session) : Session :=
  match envs with
  | [] => s
  | env :: envs => repeat_add envs sub data (snd (serve (add_to_wishlist env sub data) s))
  end.

(** [m] keeps [I]: a session satisfying [I] comes out of [m] satisfying it,
    whether [m] returns or raises. *)
Definition preserves {A} (I : Session -> Prop) (m : M A) : Prop :=
  forall s, I s -> I (snd (m s)).

Definition is_select (op : DbOp) : Prop := exists t, op = Select t.

(** Since the session was at rows [c], sequences [q] and log [l0], only
    SELECTs were sent: nothing is pending, written or committed. *)
Definition reads_only (c : Tables) (q : Seqs) (l0 : list DbOp) (s : Session) : Prop :=
  committed s = c /\ txn s = c /\ pending s = [] /\ seqs s = q
  /\ exists sel, log s = (sel ++ l0)%list /\ Forall is_select sel.

(** Keys [key] of the rows [l] are pairwise distinct and all below the
    next value [n] of their sequence. *)
Definition fresh_keys {A} (key : A -> Z) (l : list A) (n : Z) : Prop :=
  NoDup (map key l) /\ forall x, x ∈ l -> key x < n.

(** The uniqueness constraints of [models.py]: primary keys, user emails
    and farmer phone numbers. *)
Definition keys_ok (t : Tables) (q : Seqs) : Prop :=
  NoDup (map user_id (users t))
  /\ NoDup (map user_email (users t))
  /\ NoDup (map farmer_phone_number (farmers t))
  /\ fresh_keys farmer_id (farmers t) (farmers_seq q)
  /\ fresh_keys buyer_id (buyers t) (buyers_seq q)
  /\ fresh_keys order_id (orders t) (orders_seq q)
  /\ fresh_keys wishlist_id (wishlists t) (wishlists_seq q).

(** The caller's wishlist entries. *)
Definition wishes_of (uid : UUID) (t : Tables) : list Wishlist :=
  List.filter (fun w => bool_decide (wishlist_user_id w = uid)) (wishlists t).

(** The caller has an entry for animal [a]. *)
Definition wished (uid : UUID) (a : Z) (t : Tables) : Prop :=
  exists w, w ∈ wishlists t /\ wishlist_user_id w = uid /\ wishlist_animal_id w = a.

(** How many entries the caller has for animal [a]. *)
Definition wished_times (uid : UUID) (a : Z) (t : Tables) : nat :=
  length (List.filter (fun w => bool_decide (wishlist_user_id w = uid)
                               && bool_decide (wishlist_animal_id w = a)) (wishlists t)).

(** ** Properties *)

(** C9: on every protected endpoint, a subject claim that does not parse as
    a UUID is answered 400 "Invalid user ID format" (a client error, not
    401 and not 500), and the session comes back exactly as it went in: no
    statement was logged, so the database was not touched. *)
Theorem malformed_identity_rejected_before_db (env : Env) (sub : string)
    (data : option (gmap string json)) (rid : string) (s : Session) :
  uuid_parse sub = None ->
  get_current_user env sub s = (Ok bad_identity, s)
  /\ get_my_orders env sub s = (Ok bad_identity, s)
  /\ create_order env sub data s = (Ok bad_identity, s)
  /\ get_order env sub rid s = (Ok bad_identity, s)
  /\ get_order_stats env sub s = (Ok bad_identity, s)
  /\ get_my_wishlist env sub s = (Ok bad_identity, s)
  /\ add_to_wishlist env sub data s = (Ok bad_identity, s)
  /\ remove_from_wishlist env sub rid s = (Ok bad_identity, s)
  /\ check_in_wishlist env sub rid s = (Ok bad_identity, s)
  /\ get_wishlist_count env sub s = (Ok bad_identity, s).
Proof.
  intros Hbad.
  unfold get_current_user, get_my_orders, create_order, get_order, get_order_stats,
    get_my_wishlist, add_to_wishlist, remove_from_wishlist, check_in_wishlist,
    get_wishlist_count.
  rewrite Hbad.
  repeat split.
Qed.

(** *** Running handlers on a session between requests *)

Lemma idle_inv (s : Session) :
  idle s -> s = mkSession (committed s) (committed s) [] (seqs s) (log s).
Proof. destruct s as [c t p q l]; intros [Ht Hp]; simpl in *; subst; reflexivity. Qed.

Lemma query_run {A} (env : Env) (tbl : Table) (rows : Tables -> list A) (p : A -> bool)
    (c t : Tables) (q : Seqs) (l : list DbOp) :
  query env tbl rows p (mkSession c t [] q l)
  = (Ok (List.filter p (rows t)), mkSession c t [] q (Select tbl :: l)).
Proof. reflexivity. Qed.

Lemma find_buyer_run (env : Env) (uid : UUID) (c t : Tables) (q : Seqs) (l : list DbOp) :
  find_buyer env uid (mkSession c t [] q l)
  = (Ok (first (List.filter (fun b => bool_decide (buyer_user_id b = uid)) (buyers t))),
     mkSession c t [] q (Select TBuyers :: l)).
Proof. reflexivity. Qed.

Lemma bind_run {A B} (m : M A) (k : A -> M B) (s s' : Session) (a : A) :
  m s = (Ok a, s') -> (m ≫= k) s = k a s'.
Proof. intros H; unfold mbind, M_bind, bind; rewrite H; reflexivity. Qed.

Lemma bind_raise {A B} (m : M A) (k : A -> M B) (s s' : Session) (e : exn) :
  m s = (Raise e, s') -> (m ≫= k) s = (Raise e, s').
Proof. intros H; unfold mbind, M_bind, bind; rewrite H; reflexivity. Qed.

Lemma filter_none {A} (p : A -> bool) (l : list A) :
  (forall x, x ∈ l -> p x = false) -> List.filter p l = [].
Proof.
  induction l as [|a l IH]; intros H; simpl; [reflexivity|].
  rewrite (H a) by (left). apply IH. intros x Hx. apply H. right. exact Hx.
Qed.

Lemma first_none_all {A} (p : A -> bool) (l : list A) :
  first (List.filter p l) = None -> forall x, x ∈ l -> p x = false.
Proof.
  unfold first. intros H x Hx. destruct (p x) eqn:Hp; [|reflexivity]. exfalso.
  assert (Hin : In x (List.filter p l)).
  { apply filter_In. split; [apply list_elem_of_In; exact Hx|exact Hp]. }
  destruct (List.filter p l); [inversion Hin|discriminate].
Qed.

Lemma filter_first_in {A} (p : A -> bool) (l : list A) (x : A) :
  first (List.filter p l) = Some x -> x ∈ l /\ p x = true.
Proof.
  unfold first. intros H.
  assert (Hin : In x (List.filter p l)).
  { destruct (List.filter p l); simpl in H; [discriminate|]. injection H as ->. left. reflexivity. }
  apply filter_In in Hin. destruct Hin as [Hin Hp]. split; [|exact Hp].
  apply list_elem_of_In. exact Hin.
Qed.

Lemma key_injective {A K} (f : A -> K) (l : list A) (x y : A) :
  NoDup (map f l) -> x ∈ l -> y ∈ l -> f x = f y -> x = y.
Proof.
  induction l as [|a l IH]; intros Hnd Hx Hy Hf.
  - inversion Hx.
  - simpl in Hnd. apply NoDup_cons in Hnd. destruct Hnd as [Hna Hnd].
    apply elem_of_cons in Hx. apply elem_of_cons in Hy.
    destruct Hx as [->|Hx], Hy as [->|Hy].
    + reflexivity.
    + exfalso. apply Hna. rewrite Hf. apply list_elem_of_fmap. exists y. split; [reflexivity|exact Hy].
    + exfalso. apply Hna. rewrite <- Hf. apply list_elem_of_fmap. exists x. split; [reflexivity|exact Hx].
    + apply IH; assumption.
Qed.

Lemma no_buyer_first (uid : UUID) (t : Tables) :
  no_buyer uid t ->
  first (List.filter (fun b => bool_decide (buyer_user_id b = uid)) (buyers t)) = None.
Proof.
  intros H. rewrite filter_none; [reflexivity|].
  intros b Hb. apply bool_decide_eq_false. apply H. exact Hb.
Qed.

(** C8 as the code has it: without a Buyer profile, GET /orders answers
    404 "No buyer profile found for this user" and commits nothing; it
    does not answer an empty list. *)
Theorem get_my_orders_without_profile (env : Env) (sub : string) (uid : UUID) (s : Session) :
  uuid_parse sub = Some uid ->
  idle s ->
  no_buyer uid (committed s) ->
  exists s',
    serve (get_my_orders env sub) s
    = (Replied (mkReply 404 (JObj [("message", JStr "No buyer profile found for this user")])), s')
    /\ committed s' = committed s.
Proof.
  intros Hid Hidle Hnone. rewrite (idle_inv s Hidle).
  unfold serve, get_my_orders. rewrite Hid.
  erewrite bind_run by apply find_buyer_run.
  rewrite no_buyer_first by exact Hnone.
  simpl. eexists. split; reflexivity.
Qed.

(** C6: GET /orders/stats answers 200 with zeros when the caller has no
    Buyer profile; with a profile it answers 200 with the number of orders
    whose buyer_id is that profile's id and their total (as floats, summed
    and rounded to 2 decimals), over those orders only.  Nothing is
    committed either way. *)
Theorem order_stats_scoped (env : Env) (sub : string) (uid : UUID) (s : Session) :
  uuid_parse sub = Some uid ->
  idle s ->
  exists s',
    committed s' = committed s
    /\ serve (get_order_stats env sub) s
       = (Replied
            (match buyer_of uid (committed s) with
             | None => mkReply 200 (JObj [("total_orders", JInt 0); ("total_spent", JInt 0)])
             | Some b =>
                 mkReply 200
                   (JObj [("total_orders", JInt (Z.of_nat (length (orders_of b (committed s)))));
                          ("total_spent",
                           match orders_of b (committed s) with
                           | [] => JInt 0
                           | os => JFloat (round2 (fsum (map (fun o => float_of_numeric (order_total_amount o)) os)))
                           end)])
             end), s').
Proof.
  intros Hid Hidle. rewrite (idle_inv s Hidle).
  unfold serve, get_order_stats. rewrite Hid.
  erewrite bind_run by apply find_buyer_run.
  unfold buyer_of, orders_of. simpl committed.
  destruct (first _) as [b|].
  - erewrite bind_run by apply query_run.
    unfold total_spent. simpl txn.
    destruct (List.filter _ (orders (committed s)));
      (eexists; split; [|reflexivity]; reflexivity).
  - simpl. eexists. split; [|reflexivity]. reflexivity.
Qed.

(** *** Isolation of orders and wishlist entries *)

Lemma get_order_run (env : Env) (sub rid : string) (uid : UUID) (oid : option Z)
    (c : Tables) (q : Seqs) (l : list DbOp) :
  uuid_parse sub = Some uid ->
  bind_int (JStr rid) = Some oid ->
  serve (get_order env sub rid) (mkSession c c [] q l)
  = match buyer_of uid c with
    | None => (Replied (not_found "No buyer profile found for this user"),
               mkSession c c [] q (Select TBuyers :: l))
    | Some b =>
        (Replied
           match first (List.filter
                          (fun o => eq_param (order_id o) oid
                                    && bool_decide (order_buyer_id o = buyer_id b))
                          (orders c)) with
           | None => not_found "Order not found or access denied"
           | Some o => mkReply 200 (order_to_dict o)
           end,
         mkSession c c [] q (Select TOrders :: Select TBuyers :: l))
    end.
Proof.
  intros Hid Hoid. unfold serve, get_order. rewrite Hid, Hoid.
  erewrite bind_run by apply find_buyer_run.
  unfold buyer_of. destruct (first _) as [b|]; [|reflexivity].
  erewrite bind_run by reflexivity.
  erewrite bind_run by apply query_run.
  simpl txn. destruct (first _); reflexivity.
Qed.

Lemma remove_from_wishlist_miss (env : Env) (sub rid : string) (uid : UUID)
    (iid : option Z) (c : Tables) (q : Seqs) (l : list DbOp) :
  uuid_parse sub = Some uid ->
  bind_int (JStr rid) = Some iid ->
  List.filter (fun w => eq_param (wishlist_id w) iid
                        && bool_decide (wishlist_user_id w = uid)) (wishlists c) = [] ->
  serve (remove_from_wishlist env sub rid) (mkSession c c [] q l)
  = (Replied (not_found "Wishlist item not found or access denied"),
     mkSession c c [] q (Select TWishlists :: l)).
Proof.
  intros Hid Hiid Hnone. unfold serve, remove_from_wishlist. rewrite Hid, Hiid.
  erewrite bind_run by reflexivity.
  erewrite bind_run by apply query_run.
  simpl txn. rewrite Hnone. reflexivity.
Qed.

(** C1: a caller who names an order, or a wishlist entry, that belongs to
    another user gets the very response (and leaves the very session) that
    an id carried by no row gets: a 404, with nothing committed, so the
    other user's row is neither returned nor deleted. *)
Theorem foreign_id_same_as_absent (env : Env) (sub rid rid' : string)
    (uid other : UUID) (n m : Z) (s : Session) :
  uuid_parse sub = Some uid ->
  idle s ->
  other <> uid ->
  NoDup (map buyer_id (buyers (committed s))) ->
  NoDup (map order_id (orders (committed s))) ->
  NoDup (map wishlist_id (wishlists (committed s))) ->
  bind_int (JStr rid) = Some (Some n) ->
  bind_int (JStr rid') = Some (Some m) ->
  (forall o owner,
      o ∈ orders (committed s) -> order_id o = n ->
      owner ∈ buyers (committed s) -> buyer_id owner = order_buyer_id o ->
      buyer_user_id owner = other ->
      m ∉ map order_id (orders (committed s)) ->
      serve (get_order env sub rid) s = serve (get_order env sub rid') s
      /\ exists r s', serve (get_order env sub rid) s = (Replied r, s')
                      /\ status r = 404 /\ committed s' = committed s)
  /\ (forall w,
        w ∈ wishlists (committed s) -> wishlist_id w = n ->
        wishlist_user_id w = other ->
        m ∉ map wishlist_id (wishlists (committed s)) ->
        serve (remove_from_wishlist env sub rid) s
        = serve (remove_from_wishlist env sub rid') s
        /\ exists r s', serve (remove_from_wishlist env sub rid) s = (Replied r, s')
                        /\ status r = 404 /\ committed s' = committed s).
Proof.
  intros Hid Hidle Hneq Hbuyers Horders Hwish Hrid Hrid'.
  rewrite (idle_inv s Hidle). simpl committed. set (c := committed s) in *.
  split.
  - intros o owner Ho Hon Howner Hlink Huser Hm.
    rewrite (get_order_run env sub rid uid (Some n)) by assumption.
    rewrite (get_order_run env sub rid' uid (Some m)) by assumption.
    destruct (buyer_of uid c) as [b|] eqn:Hb.
    + apply filter_first_in in Hb. destruct Hb as [Hbin Hbu].
      apply bool_decide_eq_true in Hbu.
      rewrite (filter_none _ (orders c)).
      2:{ intros o' Ho'. apply andb_false_iff.
          destruct (decide (order_id o' = n)) as [Heq|Hne].
          - right. apply bool_decide_eq_false. intros Hown.
            assert (o' = o) by (apply (key_injective order_id (orders c)); congruence).
            subst o'.
            assert (owner = b).
            { apply (key_injective buyer_id (buyers c)); congruence. }
            subst owner. congruence.
          - left. simpl. apply bool_decide_eq_false. exact Hne. }
      rewrite (filter_none _ (orders c)).
      2:{ intros o' Ho'. apply andb_false_iff. left. simpl.
          apply bool_decide_eq_false. intros Heq. apply Hm.
          apply list_elem_of_fmap. exists o'. split; [congruence|exact Ho']. }
      split; [reflexivity|]. do 2 eexists. repeat split.
    + split; [reflexivity|]. do 2 eexists. repeat split.
  - intros w Hw Hwn Hwu Hm.
    rewrite (remove_from_wishlist_miss env sub rid uid (Some n)); try assumption.
    2:{ apply filter_none. intros w' Hw'. apply andb_false_iff.
        destruct (decide (wishlist_id w' = n)) as [Heq|Hne].
        - right. apply bool_decide_eq_false. intros Hown.
          assert (w' = w) by (apply (key_injective wishlist_id (wishlists c)); congruence).
          subst w'. congruence.
        - left. simpl. apply bool_decide_eq_false. exact Hne. }
    rewrite (remove_from_wishlist_miss env sub rid' uid (Some m)); try assumption.
    2:{ apply filter_none. intros w' Hw'. apply andb_false_iff. left. simpl.
        apply bool_decide_eq_false. intros Heq. apply Hm.
        apply list_elem_of_fmap. exists w'. split; [congruence|exact Hw']. }
    split; [reflexivity|]. do 2 eexists. repeat split.
Qed.

(** *** Login *)

Lemma login_lookup (env : Env) (d : gmap string json) (e : option string)
    (c : Tables) (q : Seqs) (l : list DbOp) :
  bind_text (dict_get d "email") = Some e ->
  login env (Some d) (mkSession c c [] q l)
  = match first (List.filter (fun u => eq_param (user_email u) e) (users c)) with
    | Some user =>
        match dict_get d "password" with
        | JStr pw =>
            if check_password_hash (user_password_hash user) pw
            then (Ok (mkReply 200
                        (JObj [("message", JStr "Login successful");
                               ("access_token",
                                JStr (create_access_token (uuid_str (user_id user)) (user_role user)));
                               ("user", JObj (user_json user))])),
                  mkSession c c [] q (Select TUsers :: l))
            else (Ok login_refused, mkSession c c [] q (Select TUsers :: l))
        | _ => (Raise AttributeError, mkSession c c [] q (Select TUsers :: l))
        end
    | None => (Ok login_refused, mkSession c c [] q (Select TUsers :: l))
    end.
Proof.
  intros He. unfold login. rewrite He.
  erewrite bind_run by reflexivity.
  erewrite bind_run by apply query_run.
  simpl txn. destruct (first _) as [user|]; [|reflexivity].
  destruct (dict_get d "password"); try reflexivity.
  destruct (check_password_hash _ _); reflexivity.
Qed.

(** Where the two failures of a login agree: an email that matches no user
    and an email that exists with a password string that does not verify
    are answered alike, with the same 401 body and the same session
    afterwards, nothing committed. *)
Lemma login_failures_alike_for_strings (env env' : Env) (d d' : gmap string json)
    (e : option string) (e' pw : string) (s : Session) :
  idle s ->
  bind_text (dict_get d "email") = Some e ->
  from_option nul_free true e = true ->
  (forall u, u ∈ users (committed s) -> eq_param (user_email u) e = false) ->
  dict_get d' "email" = JStr e' ->
  dict_get d' "password" = JStr pw ->
  e' ∈ map user_email (users (committed s)) ->
  (forall u, u ∈ users (committed s) -> user_email u = e' ->
             check_password_hash (user_password_hash u) pw = false) ->
  serve (login env (Some d)) s = serve (login env' (Some d')) s
  /\ exists s', serve (login env (Some d)) s = (Replied login_refused, s')
                /\ committed s' = committed s.
Proof.
  intros Hidle He _ Hnone He' Hpw Hsome Hwrong.
  rewrite (idle_inv s Hidle). unfold serve.
  rewrite (login_lookup env d e) by exact He.
  rewrite (login_lookup env' d' (Some e')) by (rewrite He'; reflexivity).
  simpl committed. rewrite (filter_none _ (users (committed s))) by exact Hnone.
  rewrite Hpw.
  destruct (first (List.filter _ (users (committed s)))) as [u|] eqn:Hu.
  - apply filter_first_in in Hu. destruct Hu as [Hin Hmail].
    simpl in Hmail. apply bool_decide_eq_true in Hmail.
    rewrite (Hwrong u Hin Hmail). simpl.
    split; [reflexivity|]. eexists. split; reflexivity.
  - simpl. split; [reflexivity|]. eexists. split; reflexivity.
Qed.

(** C4 against the code: the two failures of a login are told apart when
    the password is missing or is not a JSON string.  With an email that
    matches no user the reply is the 401 "Invalid credentials"; with an
    email that exists, [check_password] is called on the value and raises,
    so the request ends in an unhandled AttributeError, which the framework
    answers 500.  The two outcomes differ, and the difference tells whether
    the email is registered. *)
Theorem login_failures_told_apart (env env' : Env) (d d' : gmap string json)
    (e e' : string) (s : Session) :
  idle s ->
  dict_get d "email" = JStr e ->
  nul_free e = true ->
  e ∉ map user_email (users (committed s)) ->
  dict_get d' "email" = JStr e' ->
  e' ∈ map user_email (users (committed s)) ->
  dict_get d "password" = dict_get d' "password" ->
  (forall pw, dict_get d' "password" <> JStr pw) ->
  fst (serve (login env (Some d)) s) = Replied login_refused
  /\ fst (serve (login env' (Some d')) s) = Unhandled AttributeError
  /\ fst (serve (login env (Some d)) s) <> fst (serve (login env' (Some d')) s).
Proof.
  intros Hidle He _ Hnone He' Hsome Hsame Hpw.
  assert (H1 : fst (serve (login env (Some d)) s) = Replied login_refused).
  { rewrite (idle_inv s Hidle). unfold serve.
    rewrite (login_lookup env d (Some e)) by (rewrite He; reflexivity).
    simpl committed. rewrite (filter_none _ (users (committed s))); [reflexivity|].
    intros u Hu. simpl. apply bool_decide_eq_false. intros Hmail. apply Hnone.
    apply list_elem_of_fmap. exists u. split; [symmetry; exact Hmail|exact Hu]. }
  assert (H2 : fst (serve (login env' (Some d')) s) = Unhandled AttributeError).
  { rewrite (idle_inv s Hidle). unfold serve.
    rewrite (login_lookup env' d' (Some e')) by (rewrite He'; reflexivity).
    simpl committed.
    destruct (first (List.filter _ (users (committed s)))) as [u|] eqn:Hu.
    - destruct (dict_get d' "password") as [|b|n|f|pw|js|kvs]; try reflexivity.
      exfalso. exact (Hpw pw eq_refl).
    - exfalso. apply list_elem_of_fmap in Hsome. destruct Hsome as (u & Hmail & Hin).
      pose proof (first_none_all _ _ Hu u Hin) as Hno.
      simpl in Hno. apply bool_decide_eq_false in Hno. apply Hno. symmetry. exact Hmail. }
  split; [exact H1|]. split; [exact H2|]. rewrite H1, H2. discriminate.
Qed.

(** *** Flushing and committing one pending row *)

Lemma flush_one (env : Env) (r : NewRow) (c t : Tables) (q : Seqs) (l : list DbOp) :
  session_flush env (mkSession c t [PAdd r] q l)
  = match insert_row env (fst (next_id r q)) r t with
    | inl e => (Raise e,
                mkSession c c [] (if draws e then snd (next_id r q) else q)
                  (if sent e then Insert (table_of r) :: l else l))
    | inr (row, t') =>
        (Ok [row], mkSession c t' [] (snd (next_id r q)) (Insert (table_of r) :: l))
    end.
Proof.
  unfold session_flush. simpl. destruct (next_id r q) as [id q']. simpl.
  destruct (insert_row env id r t) as [e|[row t']]; reflexivity.
Qed.

Lemma commit_one (env : Env) (r : NewRow) (c t : Tables) (q : Seqs) (l : list DbOp) :
  session_commit env (mkSession c t [PAdd r] q l)
  = match insert_row env (fst (next_id r q)) r t with
    | inl e => (Raise e,
                mkSession c c [] (if draws e then snd (next_id r q) else q)
                  (if sent e then Insert (table_of r) :: l else l))
    | inr (row, t') =>
        if db_fault env
        then (Raise OperationalError,
              mkSession c c [] (snd (next_id r q)) (Commit :: Insert (table_of r) :: l))
        else (Ok [row],
              mkSession t' t' [] (snd (next_id r q)) (Commit :: Insert (table_of r) :: l))
    end.
Proof.
  unfold session_commit.
  destruct (insert_row env (fst (next_id r q)) r t) as [e|[row t']] eqn:Hins.
  - erewrite bind_raise; [reflexivity|]. rewrite flush_one, Hins. reflexivity.
  - erewrite bind_run by (rewrite flush_one, Hins; reflexivity).
    unfold mbind, M_bind, bind, commit_txn. simpl.
    destruct (db_fault env); reflexivity.
Qed.

Lemma add_run (r : NewRow) (c t : Tables) (q : Seqs) (l : list DbOp) :
  session_add r (mkSession c t [] q l) = (Ok tt, mkSession c t [PAdd r] q l).
Proof. reflexivity. Qed.

(** What a successful INSERT adds. *)
Lemma insert_user_inv (env : Env) (id : Z) (email : json) (pw : string) (role : UserRole)
    (fn ph loc : json) (t t' : Tables) (row : Row) :
  insert_row env id (NewUser email pw role fn ph loc) t = inr (row, t') ->
  exists u, row = RUser u /\ t' = set_users t (users t ++ [u])
            /\ user_id u = uuid4 env /\ user_role u = role.
Proof.
  unfold insert_row.
  destruct (store_text email) as [[e|]|]; destruct (store_text fn) as [f|];
    destruct (store_text ph) as [p|]; destruct (store_text loc) as [o|]; try discriminate.
  destruct (negb _); [discriminate|].
  destruct (_ || _); [discriminate|].
  intros H. injection H as <- <-. eexists. repeat split.
Qed.

Lemma insert_farmer_inv (env : Env) (id : Z) (user : UUID) (fn loc ph : json)
    (t t' : Tables) (row : Row) :
  insert_row env id (NewFarmer user fn loc ph) t = inr (row, t') ->
  exists f, row = RFarmer f /\ t' = set_farmers t (farmers t ++ [f])
            /\ farmer_user_id f = user.
Proof.
  unfold insert_row.
  destruct (store_text fn) as [[f|]|]; destruct (store_text loc) as [[o|]|];
    destruct (store_text ph) as [[p|]|]; try discriminate.
  destruct (negb _); [discriminate|].
  destruct (_ || _); [discriminate|].
  intros H. injection H as <- <-. eexists. repeat split.
Qed.

Lemma insert_buyer_inv (env : Env) (id : Z) (user : UUID) (addr contact : json)
    (t t' : Tables) (row : Row) :
  insert_row env id (NewBuyer user addr contact) t = inr (row, t') ->
  exists b, row = RBuyer b /\ t' = set_buyers t (buyers t ++ [b])
            /\ buyer_user_id b = user.
Proof.
  unfold insert_row.
  destruct (store_text addr) as [a|]; destruct (store_text contact) as [k|]; try discriminate.
  destruct (negb (fits_opt _ _)); [discriminate|].
  destruct (negb (has_user _ _)); [discriminate|].
  intros H. injection H as <- <-. eexists. repeat split.
Qed.

Lemma insert_order_inv (env : Env) (id buyer : Z) (items total st pm : json)
    (t t' : Tables) (row : Row) :
  insert_row env id (NewOrder buyer items total st pm) t = inr (row, t') ->
  exists o, row = ROrder o /\ t' = set_orders t (orders t ++ [o])
            /\ order_id o = id /\ order_buyer_id o = buyer /\ order_items o = items
            /\ (forall v, store_text st = Some v -> order_status o = Some (default "pending" v)).
Proof.
  unfold insert_row.
  destruct (bind_numeric total) as [[c|]|]; destruct (store_text st) as [v|];
    destruct (store_text pm) as [m|]; try discriminate.
  destruct (negb (_ && _)); [discriminate|].
  destruct (negb (has_buyer _ _)); [discriminate|].
  intros H. injection H as <- <-. eexists. repeat split.
  intros v' Hv. injection Hv as <-. reflexivity.
Qed.


Lemma insert_wishlist_inv (env : Env) (id : Z) (user : UUID) (animal : json)
    (t t' : Tables) (row : Row) :
  insert_row env id (NewWishlist user animal) t = inr (row, t') ->
  exists w, row = RWishlist w /\ t' = set_wishlists t (wishlists t ++ [w])
            /\ wishlist_user_id w = user
            /\ bind_int animal = Some (Some (wishlist_animal_id w)).
Proof.
  unfold insert_row.
  destruct (bind_int animal) as [[a|]|]; try discriminate.
  destruct (negb (_ && _)); [discriminate|].
  intros H. injection H as <- <-. eexists. repeat split.
Qed.

Lemma insert_wishlist_ok (env : Env) (id : Z) (user : UUID) (animal : json) (a : Z)
    (t : Tables) :
  bind_int animal = Some (Some a) ->
  has_user t user = true -> has_animal t a = true ->
  insert_row env id (NewWishlist user animal) t
  = inr (RWishlist (mkWishlist id user a (utcnow env)),
         set_wishlists t (wishlists t ++ [mkWishlist id user a (utcnow env)])).
Proof. intros Ha Hu Han. unfold insert_row. rewrite Ha, Hu, Han. reflexivity. Qed.

Lemma insert_wishlist_dangling (env : Env) (id : Z) (user : UUID) (animal : json) (a : Z)
    (t : Tables) :
  bind_int animal = Some (Some a) ->
  has_animal t a = false ->
  insert_row env id (NewWishlist user animal) t = inl IntegrityError.
Proof.
  intros Ha Han. unfold insert_row. rewrite Ha, Han, andb_false_r. reflexivity.
Qed.

(** *** Registration *)

Lemma role_of_cases (r : string) (role : UserRole) :
  role_of r = Some role -> role = FARMER \/ role = BUYER.
Proof.
  unfold role_of. destruct (String.eqb r "farmer"); [intros [= <-]; left; reflexivity|].
  destruct (String.eqb r "buyer"); [intros [= <-]; right; reflexivity|discriminate].
Qed.

Ltac nothing_committed :=
  split; [split; reflexivity|];
  left; split; [reflexivity|]; intros ? [= <-]; discriminate.



(** From here on an INSERT is reasoned about through the lemmas above. *)
Opaque insert_row.
Ltac run := unfold mbind, M_bind, mret, M_ret, bind, ret, raise, param, try_except; simpl.

Lemma register_user_atomic (env : Env) (d : gmap string json) (role : UserRole)
    (pw : string) (c : Tables) (q : Seqs) (l : list DbOp) :
  role = FARMER \/ role = BUYER ->
  atomic_outcome c (serve (register_user env d role pw) (mkSession c c [] q l)).
Proof.
  intros Hrole. unfold serve, register_user.
  destruct Hrole as [-> | ->]; unfold register_profile; run;
    rewrite flush_one; cbn [next_id fst snd table_of];
    (destruct (insert_row env 0 _ c) as [e|[row t1]] eqn:Hu;
     [unfold atomic_outcome; simpl; nothing_committed|]);
    apply insert_user_inv in Hu; destruct Hu as (u & -> & -> & Hkey & Hr).
  - destruct (negb _).
    { unfold atomic_outcome. simpl. nothing_committed. }
    destruct (bind_text (dict_get d "phone_number")) as [ph|] eqn:Hph; run.
    2:{ unfold atomic_outcome. simpl. nothing_committed. }
    destruct (first _).
    { unfold atomic_outcome. simpl. nothing_committed. }
    simpl. rewrite commit_one. cbn [next_id fst snd table_of].
    destruct (insert_row env _ _ _) as [e|[row t2]] eqn:Hp.
    { unfold atomic_outcome. simpl. nothing_committed. }
    destruct (db_fault env).
    { unfold atomic_outcome. simpl. nothing_committed. }
    apply insert_farmer_inv in Hp. destruct Hp as (f & -> & -> & Hfk).
    unfold atomic_outcome. simpl. split; [split; reflexivity|]. right.
    split; [|eexists; split; reflexivity].
    exists u. simpl. repeat split. left. exists f. simpl. repeat split; congruence.
  - simpl. rewrite commit_one. cbn [next_id fst snd table_of].
    destruct (insert_row env _ _ _) as [e|[row t2]] eqn:Hp.
    { unfold atomic_outcome. simpl. nothing_committed. }
    destruct (db_fault env).
    { unfold atomic_outcome. simpl. nothing_committed. }
    apply insert_buyer_inv in Hp. destruct Hp as (b & -> & -> & Hfk).
    unfold atomic_outcome. simpl. split; [split; reflexivity|]. right.
    split; [|eexists; split; reflexivity].
    exists u. simpl. repeat split. right. exists b. simpl. repeat split; congruence.
Qed.

Lemma email_taken_first (e : string) (us : list User) :
  e ∈ map user_email us ->
  exists u, first (List.filter (fun u => bool_decide (user_email u = e)) us) = Some u.
Proof.
  induction us as [|u us IH]; intros H.
  - inversion H.
  - simpl in H. apply elem_of_cons in H. simpl.
    destruct (bool_decide (user_email u = e)) eqn:Hd.
    + exists u. reflexivity.
    + apply bool_decide_eq_false in Hd. destruct H as [H|H]; [congruence|]. apply IH, H.
Qed.

(** C7: a well-formed registration whose email is already a user's is
    answered 409 "Email already registered"; the committed tables and the
    sequences are as before, and the only statement sent was the SELECT on
    users, so the check ran before any row was created. *)
Theorem duplicate_email_conflict (env : Env) (d : gmap string json) (r e : string)
    (role : UserRole) (s : Session) :
  idle s ->
  forallb (dict_has d) ["email"; "password"; "role"] = true ->
  dict_get d "role" = JStr r ->
  role_of (lower r) = Some role ->
  dict_get d "email" = JStr e ->
  e ∈ map user_email (users (committed s)) ->
  exists s',
    serve (register env (Some d)) s
    = (Replied (mkReply 409 (JObj [("error", JStr "Email already registered")])), s')
    /\ committed s' = committed s
    /\ seqs s' = seqs s
    /\ log s' = Select TUsers :: log s.
Proof.
  intros Hidle Hkeys Hr Hrole He Htaken.
  rewrite (idle_inv s Hidle). unfold serve, register.
  rewrite Hkeys, Hr, Hrole, He. run.
  destruct (email_taken_first e _ Htaken) as [u ->].
  simpl. eexists. split; [reflexivity|]. repeat split.
Qed.

(** C2: registration is all or nothing.  Whatever the request, it either
    commits nothing and does not answer 201, or commits exactly one User
    with the profile row of its role and answers 201.  A farmer
    registration that lacks farm_name, location or phone_number is
    answered 400 once its User row has been flushed, and that row is
    rolled back; and when the COMMIT fails nothing is committed. *)
Theorem registration_atomic (env : Env) (body : option (gmap string json)) (s : Session) :
  idle s ->
  atomic_outcome (committed s) (serve (register env body) s)
  /\ (forall d r e pw u t1,
        body = Some d ->
        forallb (dict_has d) ["email"; "password"; "role"] = true ->
        dict_get d "role" = JStr r ->
        role_of (lower r) = Some FARMER ->
        bind_text (dict_get d "email") = Some e ->
        (forall u, u ∈ users (committed s) -> eq_param (user_email u) e = false) ->
        dict_get d "password" = JStr pw ->
        insert_row env 0
          (NewUser (dict_get d "email") (generate_password_hash (salt env) pw) FARMER
             (dict_get d "full_name") (dict_get d "phone_number") (dict_get d "location"))
          (committed s) = inr (RUser u, t1) ->
        forallb truthy [dict_get d "farm_name"; dict_get d "location";
                        dict_get d "phone_number"] = false ->
        fst (serve (register env body) s)
        = Replied (mkReply 400
             (JObj [("error", JStr "Farmers require farm_name, location, and phone_number")]))
        /\ committed (snd (serve (register env body) s)) = committed s
        /\ log (snd (serve (register env body) s))
           = Rollback :: Insert TUsers :: Select TUsers :: log s)
  /\ (db_fault env = true ->
      committed (snd (serve (register env body) s)) = committed s).
Proof.
  intros Hidle. rewrite (idle_inv s Hidle). simpl committed. simpl log.
  set (c := committed s). set (q := seqs s). set (l := log s).
  assert (Hatomic : atomic_outcome c (serve (register env body) (mkSession c c [] q l))).
  { unfold serve, register.
    destruct body as [d|]; [|unfold atomic_outcome; simpl; nothing_committed].
    destruct (negb _); [unfold atomic_outcome; simpl; nothing_committed|].
    destruct (dict_get d "role") as [| | | |r| |];
      try (unfold atomic_outcome; simpl; nothing_committed).
    destruct (role_of (lower r)) as [role|] eqn:Hrole;
      [|unfold atomic_outcome; simpl; nothing_committed].
    destruct (bind_text (dict_get d "email")) as [e|]; run;
      [|unfold atomic_outcome; simpl; nothing_committed].
    destruct (first _); [unfold atomic_outcome; simpl; nothing_committed|].
    destruct (dict_get d "password") as [| | | |pw| |];
      try (unfold atomic_outcome; simpl; nothing_committed).
    apply (register_user_atomic env d role pw c q (Select TUsers :: l)).
    apply (role_of_cases _ _ Hrole). }
  split; [exact Hatomic|]. split.
  - intros d r e pw u t1 -> Hkeys Hr Hrole He Hfree Hpw Hins Hmissing.
    unfold serve, register. rewrite Hkeys, Hr, Hrole, He. run.
    rewrite (filter_none _ (users c)) by exact Hfree. simpl.
    rewrite Hpw. unfold register_user, register_profile. run.
    rewrite flush_one. cbn [next_id fst snd table_of]. rewrite Hins.
    simpl in Hmissing. rewrite Hmissing. simpl. repeat split.
  - intros Hfault. destruct Hatomic as [_ [[Hsame _]|[_ (r & Hr & H201)]]]; [exact Hsame|].
    exfalso. revert Hr H201. unfold serve, register.
    destruct body as [d|]; [|discriminate].
    destruct (negb _); [intros [= <-]; discriminate|].
    destruct (dict_get d "role") as [| | | |rs| |]; try discriminate.
    destruct (role_of (lower rs)) as [role|] eqn:Hrole; [|intros [= <-]; discriminate].
    destruct (bind_text (dict_get d "email")) as [e|]; run; [|discriminate].
    destruct (first _); [intros [= <-]; discriminate|].
    destruct (dict_get d "password") as [| | | |pw| |]; try discriminate.
    unfold register_user, register_profile. run.
    rewrite flush_one. cbn [next_id fst snd table_of].
    destruct (insert_row env 0 _ c) as [e0|[row t1]]; [discriminate|].
    destruct (role_of_cases _ _ Hrole) as [-> | ->].
    + destruct (negb _); [intros [= <-]; discriminate|].
      destruct (bind_text (dict_get d "phone_number")); run; [|discriminate].
      destruct (first _); [intros [= <-]; discriminate|].
      simpl. rewrite commit_one. cbn [next_id fst snd table_of].
      destruct (insert_row env _ _ _) as [e1|[row2 t2]]; [intros [= <-]; discriminate|].
      rewrite Hfault. intros [= <-]; discriminate.
    + simpl. rewrite commit_one. cbn [next_id fst snd table_of].
      destruct (insert_row env _ _ _) as [e1|[row2 t2]]; [intros [= <-]; discriminate|].
      rewrite Hfault. intros [= <-]; discriminate.
Qed.

(** *** Creating an order *)

Lemma dict_has_nonempty (d : gmap string json) (k : string) :
  dict_has d k = true -> bool_decide (d = ∅) = false.
Proof.
  unfold dict_has. intros H. apply bool_decide_eq_true in H.
  apply bool_decide_eq_false. intros ->. rewrite lookup_empty in H.
  destruct H as [? H]. discriminate.
Qed.

Lemma create_order_run (env : Env) (sub : string) (uid : UUID) (d : gmap string json)
    (b : Buyer) (c : Tables) (q : Seqs) (l : list DbOp) :
  uuid_parse sub = Some uid ->
  buyer_of uid c = Some b ->
  dict_has d "items" = true ->
  dict_has d "total_amount" = true ->
  exists s',
    serve (create_order env sub (Some d)) (mkSession c c [] q l)
    = (match insert_row env (orders_seq q) (order_for b d) c with
       | inl e => Unhandled e
       | inr (ROrder o, _) =>
           if db_fault env then Unhandled OperationalError else Replied (order_created o)
       | inr _ => if db_fault env then Unhandled OperationalError else Unhandled AttributeError
       end, s')
    /\ idle s'
    /\ committed s' = match insert_row env (orders_seq q) (order_for b d) c with
                      | inl _ => c
                      | inr (_, t') => if db_fault env then c else t'
                      end.
Proof.
  intros Hid Hb Hitems Htotal. unfold serve, create_order. rewrite Hid.
  erewrite bind_run by apply find_buyer_run.
  fold (buyer_of uid c). rewrite Hb.
  rewrite (dict_has_nonempty d "items" Hitems), Hitems, Htotal. cbn [negb orb].
  erewrite bind_run by apply add_run.
  fold (order_for b d).
  unfold mbind at 1, M_bind at 1, bind at 1.
  rewrite commit_one. cbn [next_id fst snd table_of order_for].
  fold (order_for b d).
  destruct (insert_row env (orders_seq q) (order_for b d) c) as [e|[row t']].
  - simpl. eexists. split; [reflexivity|]. split; [split|]; reflexivity.
  - destruct (db_fault env).
    + simpl. destruct row; eexists; (split; [reflexivity|]); (split; [split|]; reflexivity).
    + destruct row; simpl; eexists; (split; [reflexivity|]); (split; [split|]; reflexivity).
Qed.

Lemma dict_get_insert_ne (d : gmap string json) (k k' : string) (v : json) :
  k <> k' -> dict_get (<[k:=v]> d) k' = dict_get d k'.
Proof. intros H. unfold dict_get. rewrite lookup_insert_ne by exact H. reflexivity. Qed.


Lemma dict_has_insert_ne (d : gmap string json) (k k' : string) (v : json) :
  k <> k' -> dict_has (<[k:=v]> d) k' = dict_has d k'.
Proof. intros H. unfold dict_has. rewrite lookup_insert_ne by exact H. reflexivity. Qed.




(** *** The wishlist *)

(** The value the INSERT stores is the only one the duplicate check can
    find, when it finds one at all. *)
Lemma bind_match (j : json) (a : Z) :
  bind_int j = Some (Some a) ->
  exists p, match_int j = Some p /\ forall c, p c = true -> c = a.
Proof.
  destruct j as [|b|n|f|str|js|kvs]; simpl; try discriminate.
  - destruct (int4_ok n); [|discriminate]. intros [= <-].
    eexists. split; [reflexivity|]. intros c Hc. apply bool_decide_eq_true in Hc. exact Hc.
  - destruct (float_exact f) as [n|] eqn:Hf.
    + destruct (int4_ok n); [|discriminate]. intros [= <-].
      eexists. split; [reflexivity|]. intros c Hc. apply bool_decide_eq_true in Hc.
      congruence.
    + intros _. eexists. split; [reflexivity|]. intros c Hc.
      apply bool_decide_eq_true in Hc. discriminate.
  - destruct (pg_int (JStr str)) as [n|]; [|discriminate]. simpl. intros [= <-].
    eexists. split; [reflexivity|]. intros c Hc. apply bool_decide_eq_true in Hc. exact Hc.
Qed.

Lemma unlisted_filter (uid : UUID) (p : Z -> bool) (t : Tables) :
  (forall w, w ∈ wishlists t -> wishlist_user_id w = uid -> p (wishlist_animal_id w) = false) ->
  List.filter (fun w => bool_decide (wishlist_user_id w = uid) && p (wishlist_animal_id w))
    (wishlists t) = [].
Proof.
  intros Hnone. apply filter_none. intros w Hw.
  destruct (bool_decide (wishlist_user_id w = uid)) eqn:Hu; [|reflexivity].
  apply bool_decide_eq_true in Hu. simpl. exact (Hnone w Hw Hu).
Qed.

Lemma bind_match_unlisted (j : json) (uid : UUID) (a : Z) (t : Tables) :
  bind_int j = Some (Some a) ->
  ~ wished uid a t ->
  exists p, match_int j = Some p
            /\ forall w, w ∈ wishlists t -> wishlist_user_id w = uid ->
                         p (wishlist_animal_id w) = false.
Proof.
  intros Ha Hnew. destruct (bind_match j a Ha) as (p & Hp & Honly).
  exists p. split; [exact Hp|]. intros w Hw Hu.
  destruct (p (wishlist_animal_id w)) eqn:Hpw; [|reflexivity].
  exfalso. apply Hnew. exists w. split; [exact Hw|]. split; [exact Hu|].
  apply Honly. exact Hpw.
Qed.

Lemma add_present (env : Env) (sub : string) (uid : UUID) (d : gmap string json)
    (p : Z -> bool) (w : Wishlist) (c : Tables) (q : Seqs) (l : list DbOp) :
  uuid_parse sub = Some uid ->
  dict_has d "animal_id" = true ->
  match_int (dict_get d "animal_id") = Some p ->
  w ∈ wishlists c -> wishlist_user_id w = uid -> p (wishlist_animal_id w) = true ->
  serve (add_to_wishlist env sub (Some d)) (mkSession c c [] q l)
  = (Replied already_listed, mkSession c c [] q (Select TWishlists :: l)).
Proof.
  intros Hid Hkey Hp Hw Hu Han. unfold serve, add_to_wishlist. rewrite Hid.
  rewrite (dict_has_nonempty d _ Hkey), Hkey. cbn [negb orb]. rewrite Hp.
  unfold comparing. run.
  destruct (first _) as [w'|] eqn:Hfirst; [reflexivity|].
  exfalso. unfold first in Hfirst.
  assert (Hin : In w (List.filter
                        (fun w0 => bool_decide (wishlist_user_id w0 = uid)
                                   && p (wishlist_animal_id w0))
                        (wishlists c))).
  { apply filter_In. split; [apply list_elem_of_In; exact Hw|].
    apply andb_true_iff. split; [apply bool_decide_eq_true|]; assumption. }
  destruct (List.filter _ (wishlists c)); [inversion Hin|discriminate].
Qed.

Lemma add_fresh_run (env : Env) (sub : string) (uid : UUID) (d : gmap string json)
    (p : Z -> bool) (a : Z) (c : Tables) (q : Seqs) (l : list DbOp) :
  uuid_parse sub = Some uid ->
  dict_has d "animal_id" = true ->
  match_int (dict_get d "animal_id") = Some p ->
  (forall w, w ∈ wishlists c -> wishlist_user_id w = uid -> p (wishlist_animal_id w) = false) ->
  bind_int (dict_get d "animal_id") = Some (Some a) ->
  has_user c uid = true -> has_animal c a = true ->
  db_fault env = false ->
  exists s',
    serve (add_to_wishlist env sub (Some d)) (mkSession c c [] q l)
    = (Replied
         (mkReply 201
            (JObj [("message", JStr "Added to wishlist");
                   ("item",
                    wishlist_to_dict (mkWishlist (wishlists_seq q) uid a (utcnow env))
                      (first (List.filter (fun x => bool_decide (animal_id x = a))
                                (animals c))))])), s')
    /\ idle s'
    /\ seqs s' = mkSeqs (farmers_seq q) (buyers_seq q) (orders_seq q) (wishlists_seq q + 1)
    /\ committed s'
       = set_wishlists c (wishlists c ++ [mkWishlist (wishlists_seq q) uid a (utcnow env)]).
Proof.
  intros Hid Hkey Hp Hnone Ha Hu Han Hfault. unfold serve, add_to_wishlist. rewrite Hid.
  rewrite (dict_has_nonempty d _ Hkey), Hkey. cbn [negb orb]. rewrite Hp.
  unfold comparing. run.
  rewrite (unlisted_filter uid p c Hnone). simpl.
  rewrite commit_one. cbn [next_id fst snd table_of].
  rewrite (insert_wishlist_ok env _ uid _ a c Ha Hu Han), Hfault. simpl.
  eexists. split; [reflexivity|]. repeat split.
Qed.

Lemma add_step (env : Env) (sub : string) (data : option (gmap string json))
    (c : Tables) (q : Seqs) (l : list DbOp) :
  idle (snd (serve (add_to_wishlist env sub data) (mkSession c c [] q l)))
  /\ (committed (snd (serve (add_to_wishlist env sub data) (mkSession c c [] q l))) = c
      \/ exists uid d w,
           uuid_parse sub = Some uid /\ data = Some d
           /\ dict_has d "animal_id" = true
           /\ bind_int (dict_get d "animal_id") = Some (Some (wishlist_animal_id w))
           /\ wishlist_user_id w = uid
           /\ committed (snd (serve (add_to_wishlist env sub data) (mkSession c c [] q l)))
              = set_wishlists c (wishlists c ++ [w])).
Proof.
  unfold serve, add_to_wishlist.
  destruct (uuid_parse sub) as [uid|] eqn:Hid; [|simpl; split; [split|left]; reflexivity].
  destruct data as [d|]; [|simpl; split; [split|left]; reflexivity].
  destruct (dict_has d "animal_id") eqn:Hkey.
  2:{ rewrite orb_true_r. simpl. split; [split|left]; reflexivity. }
  rewrite (dict_has_nonempty d _ Hkey). cbn [negb orb].
  destruct (match_int (dict_get d "animal_id")) as [p|] eqn:Hp; unfold comparing; run;
    [|split; [split|left]; reflexivity].
  destruct (first _); [simpl; split; [split|left]; reflexivity|].
  simpl. rewrite commit_one. cbn [next_id fst snd table_of].
  destruct (insert_row env _ _ c) as [e|[row t']] eqn:Hins;
    [simpl; split; [split|left]; reflexivity|].
  destruct (db_fault env); [simpl; split; [split|left]; reflexivity|].
  apply insert_wishlist_inv in Hins. destruct Hins as (w & -> & -> & Hu & Hbound).
  simpl. split; [split; reflexivity|]. right. exists uid, d, w. repeat split; assumption.
Qed.

Lemma serve_idle_committed (env : Env) (sub : string) (data : option (gmap string json))
    (s : Session) :
  idle s -> idle (snd (serve (add_to_wishlist env sub data) s)).
Proof. intros H. rewrite (idle_inv s H). apply add_step. Qed.

Lemma repeat_present (envs : list Env) (sub : string) (uid : UUID) (d : gmap string json)
    (p : Z -> bool) (w : Wishlist) (s : Session) :
  uuid_parse sub = Some uid ->
  dict_has d "animal_id" = true ->
  match_int (dict_get d "animal_id") = Some p ->
  idle s ->
  w ∈ wishlists (committed s) -> wishlist_user_id w = uid ->
  p (wishlist_animal_id w) = true ->
  committed (repeat_add envs sub (Some d) s) = committed s.
Proof.
  intros Hid Hkey Hp. revert s.
  induction envs as [|env envs IH]; intros s Hidle Hw Hu Han; [reflexivity|].
  simpl. rewrite (idle_inv s Hidle).
  rewrite (add_present env sub uid d p w) by assumption.
  simpl snd. rewrite IH; [reflexivity|split; reflexivity|exact Hw|exact Hu|exact Han].
Qed.

Lemma wishlist_count_snoc (uid : UUID) (c : Tables) (w : Wishlist) :
  wishlist_user_id w = uid ->
  wishlist_count uid (set_wishlists c (wishlists c ++ [w])) = S (wishlist_count uid c).
Proof.
  intros Hu. unfold wishlist_count. simpl.
  rewrite List.filter_app, length_app. simpl.
  rewrite (bool_decide_eq_true_2 _ Hu). simpl. lia.
Qed.

(** Where idempotence does hold: when the duplicate check recognises the
    value the INSERT stores (an integer in range, a float that is one, a
    string the database reads as one), a request that finds the caller's
    entry answers 200 "Item already in wishlist" and commits nothing, and
    repeating the request any number of times stores at most one entry. *)
Lemma recognised_add_is_idempotent (sub : string) (uid : UUID) (d : gmap string json)
    (p : Z -> bool) (s : Session) :
  uuid_parse sub = Some uid ->
  idle s ->
  dict_has d "animal_id" = true ->
  match_int (dict_get d "animal_id") = Some p ->
  (forall a, bind_int (dict_get d "animal_id") = Some (Some a) -> p a = true) ->
  (forall env w,
      w ∈ wishlists (committed s) -> wishlist_user_id w = uid ->
      p (wishlist_animal_id w) = true ->
      fst (serve (add_to_wishlist env sub (Some d)) s) = Replied already_listed
      /\ committed (snd (serve (add_to_wishlist env sub (Some d)) s)) = committed s)
  /\ (forall envs,
        (wishlist_count uid (committed (repeat_add envs sub (Some d) s))
         <= wishlist_count uid (committed s) + 1)%nat).
Proof.
  intros Hid Hidle Hkey Hp Hrec. split.
  - intros env w Hw Hu Han. rewrite (idle_inv s Hidle).
    rewrite (add_present env sub uid d p w) by assumption.
    split; reflexivity.
  - intros envs. revert s Hidle.
    induction envs as [|env envs IH]; intros s Hidle; [simpl; lia|].
    simpl.
    pose proof (serve_idle_committed env sub (Some d) s Hidle) as Hidle1.
    pose proof (add_step env sub (Some d) (committed s) (seqs s) (log s)) as [_ Hstep].
    rewrite <- (idle_inv s Hidle) in Hstep.
    set (s1 := snd (serve (add_to_wishlist env sub (Some d)) s)) in *.
    destruct Hstep as [Hsame | (uid' & d' & w & Hid' & Hd & _ & Ha & Hu & Hadded)].
    + specialize (IH s1 Hidle1). rewrite Hsame in IH. exact IH.
    + rewrite Hid in Hid'. injection Hid' as <-. injection Hd as <-.
      rewrite (repeat_present envs sub uid d p w s1); try assumption.
      * rewrite Hadded, wishlist_count_snoc by exact Hu. lia.
      * rewrite Hadded. simpl. apply elem_of_app. right. apply list_elem_of_singleton. reflexivity.
      * apply Hrec. exact Ha.
Qed.

Lemma wished_times_snoc (uid : UUID) (a : Z) (c : Tables) :
  forall id t,
    wished_times uid a (set_wishlists c (wishlists c ++ [mkWishlist id uid a t]))
    = S (wished_times uid a c).
Proof.
  intros id t. unfold wished_times. simpl.
  rewrite List.filter_app, length_app. simpl.
  rewrite !bool_decide_eq_true_2 by reflexivity. simpl. lia.
Qed.

(** C5 against the code: the duplicate check compares the payload's
    "animal_id" as the client sent it, while the INSERT casts it to the
    integer column.  For a value the comparison never finds among stored
    integers but the cast accepts (4.75 is stored as 5), every POST
    /wishlist is answered 201 and stores one more entry: repeating the
    request [n] times leaves the caller with [n] more entries for the same
    animal, so adding is not idempotent per (user, animal). *)
Theorem wishlist_add_repeats_unrecognised (sub : string) (uid : UUID)
    (d : gmap string json) (p : Z -> bool) (a : Z) (s : Session) :
  uuid_parse sub = Some uid ->
  idle s ->
  dict_has d "animal_id" = true ->
  match_int (dict_get d "animal_id") = Some p ->
  (forall c, p c = false) ->
  bind_int (dict_get d "animal_id") = Some (Some a) ->
  has_user (committed s) uid = true ->
  has_animal (committed s) a = true ->
  (forall env, db_fault env = false ->
      exists item,
        fst (serve (add_to_wishlist env sub (Some d)) s)
        = Replied (mkReply 201 (JObj [("message", JStr "Added to wishlist");
                                      ("item", item)])))
  /\ (forall envs,
        Forall (fun env => db_fault env = false) envs ->
        wished_times uid a (committed (repeat_add envs sub (Some d) s))
        = (wished_times uid a (committed s) + length envs)%nat).
Proof.
  intros Hid Hidle Hkey Hp Hnever Ha Hu Han. split.
  - intros env Hfault. revert Hu Han. rewrite (idle_inv s Hidle). simpl committed.
    intros Hu Han.
    destruct (add_fresh_run env sub uid d p a (committed s) (seqs s) (log s) Hid Hkey Hp
                ltac:(intros; apply Hnever) Ha Hu Han Hfault) as (s' & Hrun & _).
    rewrite Hrun. eexists. reflexivity.
  - intros envs. revert s Hidle Hu Han.
    induction envs as [|env envs IH]; intros s Hidle Hu Han Hall; [simpl; lia|].
    apply Forall_cons in Hall. destruct Hall as [Hfault Hall].
    simpl repeat_add. revert Hu Han. rewrite (idle_inv s Hidle). simpl committed.
    intros Hu Han.
    destruct (add_fresh_run env sub uid d p a (committed s) (seqs s) (log s) Hid Hkey Hp
                ltac:(intros; apply Hnever) Ha Hu Han Hfault)
      as (s' & Hrun & Hidle' & _ & Hc').
    rewrite Hrun. simpl snd.
    rewrite (IH s' Hidle'); [| rewrite Hc'; exact Hu | rewrite Hc'; exact Han | exact Hall].
    rewrite Hc', wished_times_snoc. simpl length. lia.
Qed.

Transparent insert_row.

(** *** Handlers that only read *)

Lemma preserves_bind {A B} (I : Session -> Prop) (m : M A) (k : A -> M B) :
  preserves I m -> (forall a, preserves I (k a)) -> preserves I (m ≫= k).
Proof.
  intros Hm Hk s Hs. unfold mbind, M_bind, bind.
  specialize (Hm s Hs). destruct (m s) as [[a|e] s']; simpl in *.
  - apply Hk. exact Hm.
  - exact Hm.
Qed.

Lemma preserves_ret {A} (I : Session -> Prop) (a : A) : preserves I (mret a).
Proof. intros s Hs. exact Hs. Qed.

Lemma preserves_raise {A} (I : Session -> Prop) (e : exn) : preserves I (raise e : M A).
Proof. intros s Hs. exact Hs. Qed.

Lemma preserves_param {A} (I : Session -> Prop) (b : option (option A)) :
  preserves I (param b).
Proof. destruct b; [apply preserves_ret|apply preserves_raise]. Qed.

Lemma preserves_reply1 (I : Session -> Prop) (code : Z) (k v : string) :
  preserves I (reply1 code k v).
Proof. apply preserves_ret. Qed.

Lemma preserves_get_session (I : Session -> Prop) : preserves I get_session.
Proof. intros s Hs. exact Hs. Qed.

Lemma reads_only_query {A} (c : Tables) (q : Seqs) (l0 : list DbOp) (env : Env)
    (tbl : Table) (rows : Tables -> list A) (p : A -> bool) :
  preserves (reads_only c q l0) (query env tbl rows p).
Proof.
  intros [c' t ps q' l] (Hc & Ht & Hp & Hq & sel & Hl & Hsel). simpl in *. subst.
  unfold reads_only. simpl. repeat split.
  exists (Select tbl :: sel). split; [reflexivity|].
  constructor; [exists tbl; reflexivity|exact Hsel].
Qed.

Ltac keeps lem :=
  repeat first
    [ apply preserves_reply1
    | apply preserves_ret
    | apply preserves_raise
    | apply preserves_param
    | apply preserves_get_session
    | apply lem
    | apply preserves_bind; [|intros ?]
    | match goal with
      | |- preserves _ (match ?x with _ => _ end) => destruct x
      | |- preserves _ (if ?b then _ else _) => destruct b
      end ].

Lemma idle_reads_only (s : Session) : idle s -> reads_only (committed s) (seqs s) (log s) s.
Proof.
  intros [Ht Hp]. unfold reads_only. repeat split; try assumption.
  exists []. split; [reflexivity|constructor].
Qed.

(** X1: The eight handlers that only look things up (the four GETs on orders
    and wishlist that list, fetch, count or check, the order statistics,
    /me and login) send nothing but SELECTs: after any request to them the
    committed rows and the sequences are what they were. *)
Theorem read_handlers_only_select (env : Env) (sub rid : string)
    (data : option (gmap string json)) (s : Session) :
  idle s ->
  Forall (fun h : M Reply => reads_only (committed s) (seqs s) (log s) (snd (h s)))
    [get_my_orders env sub; get_order env sub rid; get_order_stats env sub;
     get_my_wishlist env sub; check_in_wishlist env sub rid; get_wishlist_count env sub;
     get_current_user env sub; login env data].
Proof.
  intros Hidle. pose proof (idle_reads_only s Hidle) as Hs.
  assert (Hkeep : forall h : M Reply,
             preserves (reads_only (committed s) (seqs s) (log s)) h ->
             reads_only (committed s) (seqs s) (log s) (snd (h s))).
  { intros h Hh. apply Hh. exact Hs. }
  repeat constructor; apply Hkeep;
    unfold get_my_orders, get_order, get_order_stats, get_my_wishlist, check_in_wishlist,
      get_wishlist_count, get_current_user, login, invalid_user_id, no_buyer_profile,
      invalid_credentials, find_buyer;
    keeps (@reads_only_query).
Qed.

(** *** Keys *)

Lemma NoDup_map_snoc {A K} (f : A -> K) (l : list A) (x : A) :
  NoDup (map f l) -> f x ∉ map f l -> NoDup (map f (l ++ [x])).
Proof.
  intros Hnd Hx. rewrite map_app. simpl. apply NoDup_app. split; [exact Hnd|].
  split; [|apply NoDup_singleton].
  intros y Hy Hy'. apply list_elem_of_singleton in Hy'. subst y. contradiction.
Qed.

Lemma fresh_keys_snoc {A} (key : A -> Z) (l : list A) (x : A) (n : Z) :
  fresh_keys key l n -> key x = n -> fresh_keys key (l ++ [x]) (n + 1).
Proof.
  intros [Hnd Hlt] Hx. split.
  - apply NoDup_map_snoc; [exact Hnd|].
    intros Hin. apply list_elem_of_fmap in Hin. destruct Hin as (y & Hy & Hyin).
    specialize (Hlt y Hyin). lia.
  - intros y Hy. apply elem_of_app in Hy. destruct Hy as [Hy|Hy].
    + specialize (Hlt y Hy). lia.
    + apply list_elem_of_singleton in Hy. subst y. lia.
Qed.

(** *** More on what an INSERT does *)


Opaque insert_row.

(** *** Orders: listing, fetching, rejecting *)

Lemma first_unique {A} (p : A -> bool) (l : list A) (x : A) :
  x ∈ l -> p x = true -> (forall y, y ∈ l -> p y = true -> y = x) ->
  first (List.filter p l) = Some x.
Proof.
  intros Hx Hp Huniq.
  destruct (first (List.filter p l)) as [y|] eqn:Hy.
  - apply filter_first_in in Hy. destruct Hy as [Hyin Hyp].
    rewrite (Huniq y Hyin Hyp). reflexivity.
  - exfalso. unfold first in Hy.
    assert (Hin : In x (List.filter p l)).
    { apply filter_In. split; [apply list_elem_of_In; exact Hx|exact Hp]. }
    destruct (List.filter p l); [inversion Hin|discriminate].
Qed.

Lemma get_order_found (env : Env) (sub rid : string) (uid : UUID) (b : Buyer) (o : Order)
    (c : Tables) (q : Seqs) (l : list DbOp) :
  uuid_parse sub = Some uid ->
  buyer_of uid c = Some b ->
  NoDup (map order_id (orders c)) ->
  o ∈ orders c -> order_buyer_id o = buyer_id b ->
  bind_int (JStr rid) = Some (Some (order_id o)) ->
  serve (get_order env sub rid) (mkSession c c [] q l)
  = (Replied (mkReply 200 (order_to_dict o)),
     mkSession c c [] q (Select TOrders :: Select TBuyers :: l)).
Proof.
  intros Hid Hb Hnd Ho Hown Hrid.
  rewrite (get_order_run env sub rid uid (Some (order_id o))) by assumption.
  rewrite Hb. rewrite (first_unique _ (orders c) o); [reflexivity|exact Ho| |].
  - simpl. rewrite Hown. rewrite !bool_decide_eq_true_2 by reflexivity. reflexivity.
  - intros y Hy Hp. apply andb_true_iff in Hp. destruct Hp as [Hp _].
    simpl in Hp. apply bool_decide_eq_true in Hp.
    apply (key_injective order_id (orders c)); assumption.
Qed.

(** X4: GET /orders for a caller with a Buyer profile answers 200 with that
    buyer's orders, in stored order, and nothing else: an order is listed
    exactly when its buyer_id is the caller's Buyer id. *)
Theorem my_orders_lists_own_only (env : Env) (sub : string) (uid : UUID) (b : Buyer)
    (s : Session) :
  uuid_parse sub = Some uid ->
  idle s ->
  buyer_of uid (committed s) = Some b ->
  fst (serve (get_my_orders env sub) s)
  = Replied (mkReply 200 (JArr (map order_to_dict (orders_of b (committed s)))))
  /\ (forall o, o ∈ orders_of b (committed s)
                <-> o ∈ orders (committed s) /\ order_buyer_id o = buyer_id b)
  /\ exists skipped, orders_of b (committed s) ++ skipped ≡ₚ orders (committed s).
Proof.
  intros Hid Hidle Hb. rewrite (idle_inv s Hidle). simpl committed.
  split; [|split].
  - unfold serve, get_my_orders. rewrite Hid.
    erewrite bind_run by apply find_buyer_run. fold (buyer_of uid (committed s)).
    rewrite Hb. erewrite bind_run by apply query_run. reflexivity.
  - intros o. unfold orders_of. rewrite !list_elem_of_In, filter_In.
    rewrite bool_decide_eq_true. reflexivity.
  - exists (List.filter (fun o => negb (bool_decide (order_buyer_id o = buyer_id b)))
              (orders (committed s))).
    unfold orders_of. induction (orders (committed s)) as [|o os IH]; [reflexivity|].
    simpl. destruct (bool_decide _); simpl.
    + rewrite IH. reflexivity.
    + rewrite <- Permutation_middle. rewrite IH. reflexivity.
Qed.

(** X5: GET /orders/{id} on an order of the caller's own answers 200 with that
    order. *)
Theorem get_order_returns_own (env : Env) (sub rid : string) (uid : UUID) (b : Buyer)
    (o : Order) (s : Session) :
  uuid_parse sub = Some uid ->
  idle s ->
  buyer_of uid (committed s) = Some b ->
  NoDup (map order_id (orders (committed s))) ->
  o ∈ orders (committed s) -> order_buyer_id o = buyer_id b ->
  bind_int (JStr rid) = Some (Some (order_id o)) ->
  fst (serve (get_order env sub rid) s) = Replied (mkReply 200 (order_to_dict o)).
Proof.
  intros Hid Hidle Hb Hnd Ho Hown Hrid. rewrite (idle_inv s Hidle).
  rewrite (get_order_found env sub rid uid b o) by assumption. reflexivity.
Qed.

(** X6: Whenever POST /orders is answered 201, the answer carries an order
    whose id is the one the sequence held, and GET /orders/{id} with that
    id, by the same caller, answers 200 with the same order. *)
Theorem created_order_is_fetchable (env env' : Env) (sub rid : string) (uid : UUID)
    (data : option (gmap string json)) (r : Reply) (s : Session) :
  uuid_parse sub = Some uid ->
  idle s ->
  keys_ok (committed s) (seqs s) ->
  fst (serve (create_order env sub data) s) = Replied r ->
  status r = 201 ->
  exists o,
    r = order_created o
    /\ order_id o = orders_seq (seqs s)
    /\ (bind_int (JStr rid) = Some (Some (order_id o)) ->
        fst (serve (get_order env' sub rid) (snd (serve (create_order env sub data) s)))
        = Replied (mkReply 200 (order_to_dict o))).
Proof.
  intros Hid Hidle Hkeys. rewrite (idle_inv s Hidle).
  simpl committed in *. simpl seqs in *.
  set (c := committed s) in *. set (q := seqs s) in *. set (l := log s).
  destruct (buyer_of uid c) as [b|] eqn:Hb.
  2:{ unfold serve, create_order. rewrite Hid.
      erewrite bind_run by apply find_buyer_run. fold (buyer_of uid c). rewrite Hb.
      simpl. intros [= <-]. discriminate. }
  destruct data as [d|].
  2:{ unfold serve, create_order. rewrite Hid.
      erewrite bind_run by apply find_buyer_run. fold (buyer_of uid c). rewrite Hb.
      simpl. intros [= <-]. discriminate. }
  destruct (dict_has d "items" && dict_has d "total_amount") eqn:Hkeys'.
  2:{ unfold serve, create_order. rewrite Hid.
      erewrite bind_run by apply find_buyer_run. fold (buyer_of uid c). rewrite Hb.
      replace (bool_decide (d = ∅) || negb (dict_has d "items")
               || negb (dict_has d "total_amount")) with true.
      - simpl. intros [= <-]. discriminate.
      - symmetry. apply andb_false_iff in Hkeys'.
        destruct Hkeys' as [-> | ->]; simpl; rewrite ?orb_true_r; reflexivity. }
  apply andb_true_iff in Hkeys'. destruct Hkeys' as [Hitems Htotal].
  destruct (create_order_run env sub uid d b c q l Hid Hb Hitems Htotal)
    as (s' & Hrun & Hidle' & Hcommitted).
  rewrite Hrun. simpl fst. simpl snd.
  destruct (insert_row env (orders_seq q) (order_for b d) c) as [e|[row t']] eqn:Hins;
    [discriminate|].
  destruct (db_fault env); [destruct row; discriminate|].
  apply insert_order_inv in Hins.
  destruct Hins as (o & -> & -> & Hoid & Hown & _).
  intros [= <-] _. exists o. split; [reflexivity|]. split; [exact Hoid|].
  intros Hrid. rewrite (idle_inv s' Hidle'), Hcommitted.
  apply filter_first_in in Hb as Hb'. destruct Hb' as [Hbin Hbu].
  rewrite (get_order_found env' sub rid uid b o); try assumption; try reflexivity.
  - destruct Hkeys as (_ & _ & _ & _ & _ & Ho & _).
    simpl. apply (fresh_keys_snoc order_id (orders c) o (orders_seq q) Ho Hoid).
  - simpl. apply elem_of_app. right. apply list_elem_of_singleton. reflexivity.
Qed.

(** X7: POST /orders looks for the caller's Buyer profile first: without one
    the answer is 404 whatever the payload; with one, the JSON body null or
    an object lacking "items" or "total_amount" is answered 400.  Either
    way the only statement sent is the SELECT on buyers. *)
Theorem create_order_rejections (env : Env) (sub : string) (uid : UUID)
    (data : option (gmap string json)) (s : Session) :
  uuid_parse sub = Some uid ->
  idle s ->
  (buyer_of uid (committed s) = None ->
   serve (create_order env sub data) s
   = (Replied (not_found "No buyer profile found for this user"),
      mkSession (committed s) (committed s) [] (seqs s) (Select TBuyers :: log s)))
  /\ (forall b,
        buyer_of uid (committed s) = Some b ->
        match data with
        | None => True
        | Some d => dict_has d "items" = false \/ dict_has d "total_amount" = false
        end ->
        serve (create_order env sub data) s
        = (Replied (mkReply 400
             (JObj [("message", JStr "Missing required fields: items, total_amount")])),
           mkSession (committed s) (committed s) [] (seqs s) (Select TBuyers :: log s))).
Proof.
  intros Hid Hidle. rewrite (idle_inv s Hidle). simpl committed. simpl seqs. simpl log.
  split.
  - intros Hb. unfold serve, create_order. rewrite Hid.
    erewrite bind_run by apply find_buyer_run. fold (buyer_of uid (committed s)).
    rewrite Hb. reflexivity.
  - intros b Hb Hbad. unfold serve, create_order. rewrite Hid.
    erewrite bind_run by apply find_buyer_run. fold (buyer_of uid (committed s)).
    rewrite Hb. destruct data as [d|]; [|reflexivity].
    replace (bool_decide (d = ∅) || negb (dict_has d "items")
             || negb (dict_has d "total_amount")) with true; [reflexivity|].
    symmetry. destruct Hbad as [-> | ->]; simpl; rewrite ?orb_true_r; reflexivity.
Qed.

(** *** The wishlist: listing, counting, checking, adding, removing *)

Lemma wished_filter (uid : UUID) (a : Z) (t : Tables) :
  ~ wished uid a t ->
  List.filter (fun w => bool_decide (wishlist_user_id w = uid)
                        && eq_param (wishlist_animal_id w) (Some a)) (wishlists t) = [].
Proof.
  intros Hnot. apply filter_none. intros w Hw.
  destruct (bool_decide (wishlist_user_id w = uid)) eqn:Hu; [|reflexivity].
  simpl. apply bool_decide_eq_false. intros Ha. apply Hnot.
  apply bool_decide_eq_true in Hu. exists w. repeat split; assumption.
Qed.

Lemma wished_first (uid : UUID) (a : Z) (t : Tables) :
  wished uid a t ->
  is_Some (first (List.filter (fun w => bool_decide (wishlist_user_id w = uid)
                                        && eq_param (wishlist_animal_id w) (Some a))
                    (wishlists t))).
Proof.
  intros (w & Hw & Hu & Ha).
  assert (Hin : In w (List.filter
                        (fun w => bool_decide (wishlist_user_id w = uid)
                                  && eq_param (wishlist_animal_id w) (Some a))
                        (wishlists t))).
  { apply filter_In. split; [apply list_elem_of_In; exact Hw|].
    apply andb_true_iff. split; apply bool_decide_eq_true; assumption. }
  unfold first. destruct (List.filter _ (wishlists t)); [inversion Hin|eexists; reflexivity].
Qed.

(** X8: GET /wishlist, GET /wishlist/count and GET /wishlist/check/{animal}
    agree with each other and with the table: the list is the caller's
    entries in table order, each rendered by [to_dict] with the animal it
    points to; the count is the number of those entries; and the check
    says true exactly when the caller has an entry for that animal. *)
Theorem wishlist_reads_agree (env : Env) (sub astr : string) (uid : UUID) (a : Z)
    (s : Session) :
  uuid_parse sub = Some uid ->
  idle s ->
  bind_int (JStr astr) = Some (Some a) ->
  fst (serve (get_my_wishlist env sub) s)
  = Replied (mkReply 200
       (JArr (map (fun w => wishlist_to_dict w
                     (first (List.filter
                               (fun a => bool_decide (animal_id a = wishlist_animal_id w))
                               (animals (committed s)))))
                (wishes_of uid (committed s)))))
  /\ fst (serve (get_wishlist_count env sub) s)
     = Replied (mkReply 200
          (JObj [("count", JInt (Z.of_nat (length (wishes_of uid (committed s)))))]))
  /\ (forall w, w ∈ wishes_of uid (committed s)
                <-> w ∈ wishlists (committed s) /\ wishlist_user_id w = uid)
  /\ exists found,
       fst (serve (check_in_wishlist env sub astr) s)
       = Replied (mkReply 200 (JObj [("in_wishlist", JBool found)]))
       /\ (found = true <-> wished uid a (committed s)).
Proof.
  intros Hid Hidle Ha. rewrite (idle_inv s Hidle). simpl committed.
  split; [|split; [|split]].
  - unfold serve, get_my_wishlist. rewrite Hid.
    erewrite bind_run by apply query_run. reflexivity.
  - unfold serve, get_wishlist_count. rewrite Hid.
    erewrite bind_run by apply query_run. reflexivity.
  - intros w. unfold wishes_of. rewrite !list_elem_of_In, filter_In.
    rewrite bool_decide_eq_true. reflexivity.
  - eexists. split.
    + unfold serve, check_in_wishlist. rewrite Hid, Ha.
      erewrite bind_run by reflexivity.
      erewrite bind_run by apply query_run. reflexivity.
    + simpl txn. rewrite bool_decide_eq_true. split.
      * intros [w Hw]. apply filter_first_in in Hw. destruct Hw as [Hin Hp].
        apply andb_true_iff in Hp. destruct Hp as [Hu Han].
        apply bool_decide_eq_true in Hu. simpl in Han. apply bool_decide_eq_true in Han.
        exists w. repeat split; assumption.
      * apply wished_first.
Qed.

Lemma check_run (env : Env) (sub astr : string) (uid : UUID) (a : Z)
    (c : Tables) (q : Seqs) (l : list DbOp) :
  uuid_parse sub = Some uid ->
  bind_int (JStr astr) = Some (Some a) ->
  fst (serve (check_in_wishlist env sub astr) (mkSession c c [] q l))
  = Replied (mkReply 200
       (JObj [("in_wishlist",
               JBool (bool_decide
                        (is_Some (first (List.filter
                                           (fun w => bool_decide (wishlist_user_id w = uid)
                                                     && eq_param (wishlist_animal_id w) (Some a))
                                           (wishlists c))))))])).
Proof.
  intros Hid Ha. unfold serve, check_in_wishlist. rewrite Hid, Ha.
  erewrite bind_run by reflexivity.
  erewrite bind_run by apply query_run. reflexivity.
Qed.

Lemma add_success_run (env : Env) (sub : string) (uid : UUID) (d : gmap string json)
    (a : Z) (c : Tables) (q : Seqs) (l : list DbOp) :
  uuid_parse sub = Some uid ->
  dict_has d "animal_id" = true ->
  bind_int (dict_get d "animal_id") = Some (Some a) ->
  ~ wished uid a c ->
  has_user c uid = true -> has_animal c a = true ->
  db_fault env = false ->
  exists s',
    serve (add_to_wishlist env sub (Some d)) (mkSession c c [] q l)
    = (Replied
         (mkReply 201
            (JObj [("message", JStr "Added to wishlist");
                   ("item",
                    wishlist_to_dict (mkWishlist (wishlists_seq q) uid a (utcnow env))
                      (first (List.filter (fun x => bool_decide (animal_id x = a))
                                (animals c))))])), s')
    /\ idle s'
    /\ seqs s' = mkSeqs (farmers_seq q) (buyers_seq q) (orders_seq q) (wishlists_seq q + 1)
    /\ committed s'
       = set_wishlists c (wishlists c ++ [mkWishlist (wishlists_seq q) uid a (utcnow env)]).
Proof.
  intros Hid Hkey Ha Hnew Hu Han Hfault.
  destruct (bind_match_unlisted _ uid a c Ha Hnew) as (p & Hp & Hnone).
  exact (add_fresh_run env sub uid d p a c q l Hid Hkey Hp Hnone Ha Hu Han Hfault).
Qed.

(** X9: A first POST /wishlist for an animal that exists is answered 201 and
    stores one entry for the caller: the check for that animal turns from
    false to true and the caller's count goes up by exactly one. *)
Theorem wishlist_add_then_read (env env' : Env) (sub astr : string) (uid : UUID)
    (d : gmap string json) (a : Z) (s : Session) :
  uuid_parse sub = Some uid ->
  idle s ->
  dict_has d "animal_id" = true ->
  bind_int (dict_get d "animal_id") = Some (Some a) ->
  bind_int (JStr astr) = Some (Some a) ->
  ~ wished uid a (committed s) ->
  has_user (committed s) uid = true -> has_animal (committed s) a = true ->
  db_fault env = false ->
  (exists item,
      fst (serve (add_to_wishlist env sub (Some d)) s)
      = Replied (mkReply 201 (JObj [("message", JStr "Added to wishlist"); ("item", item)])))
  /\ fst (serve (check_in_wishlist env' sub astr) s)
     = Replied (mkReply 200 (JObj [("in_wishlist", JBool false)]))
  /\ fst (serve (check_in_wishlist env' sub astr)
            (snd (serve (add_to_wishlist env sub (Some d)) s)))
     = Replied (mkReply 200 (JObj [("in_wishlist", JBool true)]))
  /\ wishlist_count uid (committed (snd (serve (add_to_wishlist env sub (Some d)) s)))
     = S (wishlist_count uid (committed s)).
Proof.
  intros Hid Hidle Hkey Ha Hastr Hnew Hu Han Hfault.
  revert Hnew Hu Han. rewrite (idle_inv s Hidle). simpl committed.
  set (c := committed s). set (q := seqs s). set (l := log s). intros Hnew Hu Han.
  destruct (add_success_run env sub uid d a c q l Hid Hkey Ha Hnew Hu Han Hfault)
    as (s' & Hrun & Hidle' & _ & Hc').
  rewrite Hrun. simpl fst. simpl snd.
  split; [eexists; reflexivity|]. split; [|split].
  - rewrite (check_run env' sub astr uid a) by assumption.
    rewrite (wished_filter uid a c Hnew). reflexivity.
  - rewrite (idle_inv s' Hidle'), (check_run env' sub astr uid a) by assumption.
    rewrite bool_decide_eq_true_2; [reflexivity|].
    apply wished_first. rewrite Hc'.
    exists (mkWishlist (wishlists_seq q) uid a (utcnow env)). split; [|split; reflexivity].
    simpl. apply elem_of_app. right. apply list_elem_of_singleton. reflexivity.
  - rewrite Hc'. apply wishlist_count_snoc. reflexivity.
Qed.

(** X10: POST /wishlist for an animal id that no animal carries fails at the
    INSERT: the handler rolls back and answers 500 "Backend Crash", and no
    entry is stored. *)
Theorem wishlist_add_unknown_animal (env : Env) (sub : string) (uid : UUID)
    (d : gmap string json) (a : Z) (s : Session) :
  uuid_parse sub = Some uid ->
  idle s ->
  dict_has d "animal_id" = true ->
  bind_int (dict_get d "animal_id") = Some (Some a) ->
  has_animal (committed s) a = false ->
  ~ wished uid a (committed s) ->
  fst (serve (add_to_wishlist env sub (Some d)) s)
  = Replied (mkReply 500 (JObj [("error", JStr "Backend Crash");
                                ("details", JStr (str_exn IntegrityError))]))
  /\ committed (snd (serve (add_to_wishlist env sub (Some d)) s)) = committed s
  /\ log (snd (serve (add_to_wishlist env sub (Some d)) s))
     = Rollback :: Insert TWishlists :: Select TWishlists :: log s.
Proof.
  intros Hid Hidle Hkey Ha Han Hnew. revert Han Hnew.
  rewrite (idle_inv s Hidle). simpl committed. intros Han Hnew.
  destruct (bind_match_unlisted _ uid a _ Ha Hnew) as (p & Hp & Hnone).
  unfold serve, add_to_wishlist. rewrite Hid.
  rewrite (dict_has_nonempty d _ Hkey), Hkey. cbn [negb orb]. rewrite Hp.
  unfold comparing. run.
  rewrite (unlisted_filter uid p _ Hnone). simpl.
  rewrite commit_one. cbn [next_id fst snd table_of].
  rewrite (insert_wishlist_dangling env _ uid _ a _ Ha Han). simpl.
  repeat split.
Qed.

(** X11: POST /wishlist whose JSON body is null, the empty object or an
    object without "animal_id" is answered 400 before the database is
    touched. *)
Theorem wishlist_add_needs_animal_id (env : Env) (sub : string) (uid : UUID)
    (data : option (gmap string json)) (s : Session) :
  uuid_parse sub = Some uid ->
  match data with
  | None => True
  | Some d => dict_has d "animal_id" = false
  end ->
  add_to_wishlist env sub data s
  = (Ok (mkReply 400 (JObj [("message", JStr "Missing required field: animal_id")])), s).
Proof.
  intros Hid Hbad. unfold add_to_wishlist. rewrite Hid.
  destruct data as [d|]; [|reflexivity].
  rewrite Hbad, orb_true_r. reflexivity.
Qed.

Lemma commit_delete (env : Env) (w : Wishlist) (c t : Tables) (q : Seqs) (l : list DbOp) :
  session_commit env (mkSession c t [PDelete w] q l)
  = if db_fault env
    then (Raise OperationalError, mkSession c c [] q (Commit :: Delete TWishlists :: l))
    else (Ok [],
          mkSession
            (set_wishlists t (filter (fun x => wishlist_id x ≠ wishlist_id w) (wishlists t)))
            (set_wishlists t (filter (fun x => wishlist_id x ≠ wishlist_id w) (wishlists t)))
            [] q (Commit :: Delete TWishlists :: l)).
Proof.
  unfold session_commit, session_flush, commit_txn, mbind, M_bind, bind. simpl.
  destruct (db_fault env); reflexivity.
Qed.

(** X12: DELETE /wishlist/{id} on an entry of the caller's own is answered 200
    and deletes the entries with that id and no other: every other entry,
    the caller's or anyone's, is still there.  If the COMMIT fails the
    request is not answered by the handler and nothing is deleted. *)
Theorem wishlist_remove_own (env : Env) (sub rid : string) (uid : UUID) (n : Z)
    (w : Wishlist) (s : Session) :
  uuid_parse sub = Some uid ->
  idle s ->
  bind_int (JStr rid) = Some (Some n) ->
  w ∈ wishlists (committed s) -> wishlist_id w = n -> wishlist_user_id w = uid ->
  (db_fault env = false ->
   fst (serve (remove_from_wishlist env sub rid) s)
   = Replied (mkReply 200 (JObj [("message", JStr "Removed from wishlist")]))
   /\ (forall x, x ∈ wishlists (committed (snd (serve (remove_from_wishlist env sub rid) s)))
                 <-> x ∈ wishlists (committed s) /\ wishlist_id x <> n)
   /\ set_wishlists (committed (snd (serve (remove_from_wishlist env sub rid) s)))
        (wishlists (committed s)) = committed s)
  /\ (db_fault env = true ->
      fst (serve (remove_from_wishlist env sub rid) s) = Unhandled OperationalError
      /\ committed (snd (serve (remove_from_wishlist env sub rid) s)) = committed s).
Proof.
  intros Hid Hidle Hrid Hw Hn Hu. revert Hw.
  rewrite (idle_inv s Hidle). simpl committed. set (c := committed s). intros Hw.
  unfold serve, remove_from_wishlist. rewrite Hid, Hrid. run.
  destruct (first _) as [item|] eqn:Hitem.
  2:{ exfalso. unfold first in Hitem.
      assert (Hin : In w (List.filter
                            (fun w0 => bool_decide (wishlist_id w0 = n)
                                       && bool_decide (wishlist_user_id w0 = uid))
                            (wishlists c))).
      { apply filter_In. split; [apply list_elem_of_In; exact Hw|].
        apply andb_true_iff. split; apply bool_decide_eq_true; assumption. }
      destruct (List.filter _ (wishlists c)); [inversion Hin|discriminate]. }
  apply filter_first_in in Hitem. destruct Hitem as [_ Hp].
  apply andb_true_iff in Hp. destruct Hp as [Hp _]. apply bool_decide_eq_true in Hp.
  simpl. rewrite commit_delete. rewrite Hp.
  split; intros ->; simpl.
  - split; [reflexivity|]. split.
    + intros x. rewrite list_elem_of_filter. split; intros [H1 H2]; split; assumption.
    + destruct c; reflexivity.
  - split; reflexivity.
Qed.

(** *** Registration and login *)

(** X13: POST /register answers 400 without touching the database when email,
    password or role is missing from the body, and when the role, lowered,
    is neither "farmer" nor "buyer"; "admin" in particular cannot be
    registered. *)
Theorem register_rejects_before_db (env : Env) (d : gmap string json) (s : Session) :
  (forallb (dict_has d) ["email"; "password"; "role"] = false ->
   register env (Some d) s
   = (Ok (mkReply 400 (JObj [("error", JStr "Missing email, password, or role")])), s))
  /\ (forall r,
        forallb (dict_has d) ["email"; "password"; "role"] = true ->
        dict_get d "role" = JStr r ->
        lower r <> "farmer" -> lower r <> "buyer" ->
        register env (Some d) s
        = (Ok (mkReply 400
                 (JObj [("error", JStr "Invalid role. Must be 'farmer' or 'buyer'")])), s))
  /\ (forall r,
        forallb (dict_has d) ["email"; "password"; "role"] = true ->
        dict_get d "role" = JStr r ->
        lower r = "admin" ->
        exists reply, register env (Some d) s = (Ok reply, s) /\ status reply = 400).
Proof.
  assert (Hinvalid : forall r,
             forallb (dict_has d) ["email"; "password"; "role"] = true ->
             dict_get d "role" = JStr r ->
             lower r <> "farmer" -> lower r <> "buyer" ->
             register env (Some d) s
             = (Ok (mkReply 400
                      (JObj [("error", JStr "Invalid role. Must be 'farmer' or 'buyer'")])), s)).
  { intros r Hkeys Hr Hf Hb. unfold register. rewrite Hkeys, Hr. unfold role_of.
    destruct (String.eqb_spec (lower r) "farmer") as [Heq|_]; [contradiction|].
    destruct (String.eqb_spec (lower r) "buyer") as [Heq|_]; [contradiction|].
    reflexivity. }
  split; [|split].
  - intros Hkeys. unfold register. rewrite Hkeys. reflexivity.
  - exact Hinvalid.
  - intros r Hkeys Hr Hadmin. eexists. split.
    + apply (Hinvalid r Hkeys Hr); rewrite Hadmin; discriminate.
    + reflexivity.
Qed.

(** X14: A farmer registration whose phone number is already a farmer's is
    answered 409 after the User row was flushed; the row is rolled back
    and nothing is committed. *)
Theorem farmer_phone_conflict (env : Env) (d : gmap string json) (r pw p : string)
    (e : option string) (u : User) (t1 : Tables) (s : Session) :
  idle s ->
  forallb (dict_has d) ["email"; "password"; "role"] = true ->
  dict_get d "role" = JStr r ->
  role_of (lower r) = Some FARMER ->
  bind_text (dict_get d "email") = Some e ->
  (forall u, u ∈ users (committed s) -> eq_param (user_email u) e = false) ->
  dict_get d "password" = JStr pw ->
  insert_row env 0
    (NewUser (dict_get d "email") (generate_password_hash (salt env) pw) FARMER
       (dict_get d "full_name") (dict_get d "phone_number") (dict_get d "location"))
    (committed s) = inr (RUser u, t1) ->
  truthy (dict_get d "farm_name") = true ->
  truthy (dict_get d "location") = true ->
  dict_get d "phone_number" = JStr p -> p <> "" ->
  p ∈ map farmer_phone_number (farmers (committed s)) ->
  fst (serve (register env (Some d)) s)
  = Replied (mkReply 409 (JObj [("error", JStr "Phone number already registered")]))
  /\ committed (snd (serve (register env (Some d)) s)) = committed s
  /\ log (snd (serve (register env (Some d)) s))
     = Rollback :: Select TFarmers :: Insert TUsers :: Select TUsers :: log s.
Proof.
  intros Hidle Hkeys Hr Hrole He Hfree Hpw Hins Hfarm Hloc Hphone Hne Htaken.
  destruct s as [c t ps q l]. destruct Hidle as [Ht Hps]. simpl in Ht, Hps. subst t ps.
  cbn [committed log] in *.
  assert (Hrun : serve (register env (Some d)) (mkSession c c [] q l)
                 = (Replied (mkReply 409
                               (JObj [("error", JStr "Phone number already registered")])),
                    mkSession c c [] q
                      (Rollback :: Select TFarmers :: Insert TUsers :: Select TUsers :: l))).
  { apply insert_user_inv in Hins as Hu. destruct Hu as (u' & _ & -> & _).
    unfold serve, register. rewrite Hkeys, Hr, Hrole, He. run.
    rewrite (filter_none _ (users c)) by exact Hfree. simpl.
    rewrite Hpw. unfold register_user, register_profile. run.
    rewrite flush_one. cbn [next_id fst snd table_of]. rewrite Hins.
    rewrite Hfarm, Hloc, Hphone. simpl.
    destruct (String.eqb_spec p "") as [Heq|_]; [contradiction|]. simpl.
    destruct (List.filter (fun f => bool_decide (farmer_phone_number f = p)) (farmers c))
      as [|f0 fs] eqn:Hfilter; [|reflexivity].
    exfalso. apply list_elem_of_fmap in Htaken. destruct Htaken as (f & Hf & Hfin).
    assert (Hin : In f (List.filter (fun f => bool_decide (farmer_phone_number f = p))
                          (farmers c))).
    { apply filter_In. split; [apply list_elem_of_In; exact Hfin|].
      apply bool_decide_eq_true. symmetry. exact Hf. }
    rewrite Hfilter in Hin. inversion Hin. }
  rewrite Hrun. repeat split.
Qed.





Lemma lower_ascii_idem (c : ascii) : lower_ascii (lower_ascii c) = lower_ascii c.
Proof. destruct c as [[] [] [] [] [] [] [] []]; reflexivity. Qed.

Lemma lower_idem (r : string) : lower (lower r) = lower r.
Proof. induction r as [|c r IH]; simpl; [reflexivity|]. rewrite lower_ascii_idem, IH. reflexivity. Qed.

Ltac same_dict :=
  repeat match goal with
         | |- context [dict_get (<[?k:=?v]> ?d) ?k'] =>
             rewrite (dict_get_insert_ne d k k' v) by discriminate
         | |- context [dict_has (<[?k:=?v]> ?d) ?k'] =>
             rewrite (dict_has_insert_ne d k k' v) by discriminate
         end.

(** X17: The role of a registration is read without regard to letter case:
    sending the role lowered changes neither the answer nor the session. *)
Theorem register_role_case_insensitive (env : Env) (d : gmap string json) (r : string)
    (s : Session) :
  dict_get d "role" = JStr r ->
  register env (Some (<["role" := JStr (lower r)]> d)) s = register env (Some d) s.
Proof.
  intros Hr.
  assert (Hhas : dict_has d "role" = true).
  { unfold dict_has. apply bool_decide_eq_true. unfold dict_get in Hr.
    destruct (d !! "role"); [eexists; reflexivity|discriminate]. }
  assert (Hhas' : dict_has (<["role" := JStr (lower r)]> d) "role" = true).
  { unfold dict_has. apply bool_decide_eq_true. rewrite lookup_insert_eq. eexists; reflexivity. }
  assert (Hr' : dict_get (<["role" := JStr (lower r)]> d) "role" = JStr (lower r)).
  { unfold dict_get. rewrite lookup_insert_eq. reflexivity. }
  unfold register. cbn [forallb]. same_dict. rewrite Hhas, Hhas', Hr, Hr', lower_idem.
  destruct (negb _); [reflexivity|].
  destruct (role_of (lower r)) as [role|]; [|reflexivity].
  destruct (bind_text (dict_get d "email")) as [e|]; run; [|reflexivity].
  unfold query, session_flush. destruct s as [c t ps q l]. run.
  destruct (flush_pending env ps t q l) as [[[e0|[rows t']] q'] l']; [reflexivity|].
  run. destruct (first _); [reflexivity|].
  destruct (dict_get d "password") as [| | | |pw| |]; try reflexivity.
  unfold register_user, register_profile. run. same_dict.
  rewrite !flush_one. cbn [next_id fst snd table_of].
  destruct (insert_row env 0 _ _) as [e1|[row t1]]; [reflexivity|].
  destruct role; run; same_dict; reflexivity.
Qed.

(** X18: GET /me answers 404 when no user carries the token's id, and otherwise
    200 with the record of exactly that user. *)
Theorem me_returns_own_record (env : Env) (sub : string) (uid : UUID) (s : Session) :
  uuid_parse sub = Some uid ->
  idle s ->
  ((forall u, u ∈ users (committed s) -> user_id u <> uid) ->
   fst (serve (get_current_user env sub) s)
   = Replied (mkReply 404 (JObj [("error", JStr "User not found")])))
  /\ (forall u,
        NoDup (map user_id (users (committed s))) ->
        u ∈ users (committed s) -> user_id u = uid ->
        fst (serve (get_current_user env sub) s)
        = Replied (mkReply 200
             (JObj (user_json u
                    ++ [("created_at", JStr (isoformat (user_created_at u)))])))).
Proof.
  intros Hid Hidle. rewrite (idle_inv s Hidle). simpl committed.
  assert (Hrun : forall found,
             first (List.filter (fun u => bool_decide (user_id u = uid))
                      (users (committed s))) = found ->
             fst (serve (get_current_user env sub)
                    (mkSession (committed s) (committed s) [] (seqs s) (log s)))
             = Replied match found with
                       | None => mkReply 404 (JObj [("error", JStr "User not found")])
                       | Some u =>
                           mkReply 200
                             (JObj (user_json u
                                    ++ [("created_at", JStr (isoformat (user_created_at u)))]))
                       end).
  { intros found Hfound. unfold serve, get_current_user. rewrite Hid.
    erewrite bind_run by apply query_run. simpl txn. rewrite Hfound.
    destruct found; reflexivity. }
  split.
  - intros Hnone. apply (Hrun None). rewrite filter_none; [reflexivity|].
    intros u Hu. apply bool_decide_eq_false. apply Hnone, Hu.
  - intros u Hnd Hu Hown. apply (Hrun (Some u)).
    apply first_unique; [exact Hu|apply bool_decide_eq_true; exact Hown|].
    intros y Hy Hp. apply bool_decide_eq_true in Hp.
    apply (key_injective user_id (users (committed s))); try assumption. congruence.
Qed.

Lemma stats_run (env : Env) (sub : string) (uid : UUID) (b : Buyer)
    (c : Tables) (q : Seqs) (l : list DbOp) :
  uuid_parse sub = Some uid ->
  buyer_of uid c = Some b ->
  fst (serve (get_order_stats env sub) (mkSession c c [] q l))
  = Replied (mkReply 200
       (JObj [("total_orders", JInt (Z.of_nat (length (orders_of b c))));
              ("total_spent", total_spent (orders_of b c))])).
Proof.
  intros Hid Hb. unfold serve, get_order_stats. rewrite Hid.
  erewrite bind_run by apply find_buyer_run. fold (buyer_of uid c). rewrite Hb.
  erewrite bind_run by apply query_run. reflexivity.
Qed.

(** X19: Whenever POST /orders is answered 201, the caller's order statistics
    count one order more than before. *)
Theorem created_order_is_counted (env env' : Env) (sub : string) (uid : UUID)
    (data : option (gmap string json)) (r : Reply) (s : Session) :
  uuid_parse sub = Some uid ->
  idle s ->
  fst (serve (create_order env sub data) s) = Replied r ->
  status r = 201 ->
  exists n spent spent',
    fst (serve (get_order_stats env' sub) s)
    = Replied (mkReply 200 (JObj [("total_orders", JInt n); ("total_spent", spent)]))
    /\ fst (serve (get_order_stats env' sub) (snd (serve (create_order env sub data) s)))
       = Replied (mkReply 200 (JObj [("total_orders", JInt (n + 1));
                                     ("total_spent", spent')])).
Proof.
  intros Hid Hidle. rewrite (idle_inv s Hidle).
  set (c := committed s). set (q := seqs s). set (l := log s).
  destruct (buyer_of uid c) as [b|] eqn:Hb.
  2:{ unfold serve, create_order. rewrite Hid.
      erewrite bind_run by apply find_buyer_run. fold (buyer_of uid c). rewrite Hb.
      simpl. intros [= <-]. discriminate. }
  destruct data as [d|].
  2:{ unfold serve, create_order. rewrite Hid.
      erewrite bind_run by apply find_buyer_run. fold (buyer_of uid c). rewrite Hb.
      simpl. intros [= <-]. discriminate. }
  destruct (dict_has d "items" && dict_has d "total_amount") eqn:Hkeys'.
  2:{ unfold serve, create_order. rewrite Hid.
      erewrite bind_run by apply find_buyer_run. fold (buyer_of uid c). rewrite Hb.
      replace (bool_decide (d = ∅) || negb (dict_has d "items")
               || negb (dict_has d "total_amount")) with true.
      - simpl. intros [= <-]. discriminate.
      - symmetry. apply andb_false_iff in Hkeys'.
        destruct Hkeys' as [-> | ->]; simpl; rewrite ?orb_true_r; reflexivity. }
  apply andb_true_iff in Hkeys'. destruct Hkeys' as [Hitems Htotal].
  destruct (create_order_run env sub uid d b c q l Hid Hb Hitems Htotal)
    as (s' & Hrun & Hidle' & Hcommitted).
  rewrite Hrun. simpl fst. simpl snd.
  destruct (insert_row env (orders_seq q) (order_for b d) c) as [e|[row t']] eqn:Hins;
    [discriminate|].
  destruct (db_fault env); [destruct row; discriminate|].
  apply insert_order_inv in Hins.
  destruct Hins as (o & -> & -> & _ & Hown & _).
  intros _ _. do 3 eexists. split.
  - apply (stats_run env' sub uid b); assumption.
  - rewrite (idle_inv s' Hidle'), Hcommitted.
    rewrite (stats_run env' sub uid b) by assumption.
    unfold orders_of at 1. simpl orders. rewrite List.filter_app, length_app. simpl.
    rewrite (bool_decide_eq_true_2 _ Hown). simpl.
    replace (Z.of_nat (length (List.filter
                                 (fun o0 => bool_decide (order_buyer_id o0 = buyer_id b))
                                 (orders c)) + 1))
      with (Z.of_nat (length (orders_of b c)) + 1) by (unfold orders_of; lia).
    reflexivity.
Qed.

End Farmart.

(** ** The handlers on the sample database *)

Module Run.
Import Sample.

Abbreviation get_my_orders := (get_my_orders uuid_parse pg_text pg_int pg_numeric isoformat).
Abbreviation create_order := (create_order uuid_parse pg_text pg_int pg_numeric isoformat).
Abbreviation get_order := (get_order uuid_parse pg_text pg_int pg_numeric isoformat).
Abbreviation get_order_stats := (get_order_stats uuid_parse pg_text pg_int pg_numeric fsum round2).
Abbreviation add_to_wishlist :=
  (add_to_wishlist uuid_parse uuid_str pg_text pg_int pg_numeric str_exn isoformat).
Abbreviation remove_from_wishlist := (remove_from_wishlist uuid_parse pg_text pg_int pg_numeric).
Abbreviation repeat_add :=
  (repeat_add uuid_parse uuid_str pg_text pg_int pg_numeric str_exn isoformat).
Abbreviation register :=
  (register uuid_str generate_password_hash pg_text pg_int pg_numeric str_exn).
Abbreviation login :=
  (login uuid_str check_password_hash pg_text pg_int pg_numeric create_access_token).

Lemma session_idle : idle session.
Proof. split; reflexivity. Defined.

Ltac each_row H :=
  apply list_elem_of_In in H; simpl in H;
  repeat (destruct H as [<- | H]; [try discriminate; try reflexivity|]); try contradiction.

Ltac in_list := apply list_elem_of_In; simpl; tauto.

Ltac decide_it := refine (bool_decide_unpack _ _); vm_compute; exact I.

(** A token whose subject is not a UUID: GET /orders and POST /wishlist. *)
Lemma malformed_identity_witness :
  get_my_orders env "alice" session = (Ok bad_identity, session)
  /\ add_to_wishlist env "alice" (Some wish_cow) session = (Ok bad_identity, session).
Proof.
  destruct (malformed_identity_rejected_before_db uuid_parse uuid_str pg_text pg_int
              pg_numeric fsum round2 str_exn isoformat env "alice" (Some wish_cow) "7"
              session eq_refl)
    as (_ & H1 & _ & _ & _ & _ & H2 & _).
  split; [exact H1|exact H2].
Defined.

(** C8, as stated, fails: Carol farms and has no Buyer row, and her
    GET /orders is a 404, not an empty list. *)
Lemma get_my_orders_404_without_profile :
  no_buyer 12%N (committed session)
  /\ fst (serve (get_my_orders env carol_sub) session)
     = Replied (mkReply 404 (JObj [("message", JStr "No buyer profile found for this user")]))
  /\ fst (serve (get_my_orders env carol_sub) session) <> Replied (mkReply 200 (JArr [])).
Proof.
  split; [intros b Hb; each_row Hb|].
  split; [vm_compute; reflexivity|].
  vm_compute. intros H. discriminate H.
Defined.

Lemma get_my_orders_without_profile_witness :
  exists s',
    serve (get_my_orders env carol_sub) session
    = (Replied (mkReply 404 (JObj [("message", JStr "No buyer profile found for this user")])), s')
    /\ committed s' = committed session.
Proof.
  apply (get_my_orders_without_profile uuid_parse pg_text pg_int pg_numeric isoformat
           env carol_sub 12%N session eq_refl session_idle).
  intros b Hb. each_row Hb.
Defined.

(** Bob's statistics: his one order of 185000.00. *)
Lemma order_stats_witness :
  exists s',
    committed s' = committed session
    /\ fst (serve (get_order_stats env "0000000b-0000-4000-8000-000000000000") session)
       = Replied (mkReply 200 (JObj [("total_orders", JInt 1);
                                     ("total_spent", JFloat 185000%float)])).
Proof.
  destruct (order_stats_scoped uuid_parse pg_text pg_int pg_numeric fsum round2 env
              "0000000b-0000-4000-8000-000000000000" 11%N session eq_refl session_idle)
    as (s' & Hc & Hs).
  exists s'. split; [exact Hc|]. rewrite Hs. vm_compute. reflexivity.
Defined.

(** Alice asks for Bob's order 7, then for an order 99 that nobody has;
    and tries to delete Bob's wishlist entry 3, then an entry 99. *)
Lemma foreign_id_witness :
  serve (get_order env alice_sub "7") session = serve (get_order env alice_sub "99") session
  /\ serve (remove_from_wishlist env alice_sub "3") session
     = serve (remove_from_wishlist env alice_sub "99") session.
Proof.
  assert (Hne : (11%N : UUID) <> 10%N) by discriminate.
  assert (Hb : NoDup (map buyer_id (buyers (committed session)))) by decide_it.
  assert (Ho : NoDup (map order_id (orders (committed session)))) by decide_it.
  assert (Hw : NoDup (map wishlist_id (wishlists (committed session)))) by decide_it.
  split.
  - destruct (foreign_id_same_as_absent uuid_parse pg_text pg_int pg_numeric isoformat
                env alice_sub "7" "99" 10%N 11%N 7 99 session eq_refl session_idle Hne
                Hb Ho Hw eq_refl eq_refl)
      as [Horder _].
    apply (Horder (mkOrder 7 2 (JArr []) 18500000 (Some "paid") (Some "mpesa") 110)
                  (mkBuyer 2 11%N None None 101));
      try reflexivity; try in_list; decide_it.
  - destruct (foreign_id_same_as_absent uuid_parse pg_text pg_int pg_numeric isoformat
                env alice_sub "3" "99" 10%N 11%N 3 99 session eq_refl session_idle Hne
                Hb Ho Hw eq_refl eq_refl)
      as [_ Hwish].
    apply (Hwish (mkWishlist 3 11%N 5 111)); try reflexivity; try in_list; decide_it.
Defined.

(** An unknown email and Alice's email, both without a password: 401 for
    the first, an unhandled AttributeError for the second. *)
Lemma login_told_apart_witness :
  fst (serve (login env (Some login_unknown_no_password)) session) = Replied login_refused
  /\ fst (serve (login env (Some login_alice_no_password)) session)
     = Unhandled AttributeError
  /\ fst (serve (login env (Some login_unknown_no_password)) session)
     <> fst (serve (login env (Some login_alice_no_password)) session).
Proof.
  apply (login_failures_told_apart uuid_str check_password_hash pg_text pg_int
           pg_numeric create_access_token env env login_unknown_no_password
           login_alice_no_password "nobody@example.com" "alice@example.com" session
           session_idle).
  - vm_compute. reflexivity.
  - vm_compute. reflexivity.
  - intros Hin. apply list_elem_of_In in Hin. simpl in Hin.
    repeat (destruct Hin as [Hin|Hin]; [discriminate Hin|]). exact Hin.
  - vm_compute. reflexivity.
  - decide_it.
  - vm_compute. reflexivity.
  - intros pw Hpw. vm_compute in Hpw. discriminate Hpw.
Defined.

(** An unknown email and Alice's email with a wrong password string. *)
Lemma login_failures_alike_example :
  serve (login env (Some login_unknown)) session
  = serve (login env (Some login_wrong_password)) session.
Proof.
  apply (login_failures_alike_for_strings uuid_str check_password_hash pg_text pg_int
           pg_numeric create_access_token env env login_unknown login_wrong_password
           (Some "nobody@example.com") "alice@example.com" "not-alices" session
           session_idle).
  - vm_compute. reflexivity.
  - reflexivity.
  - intros u Hu. each_row Hu.
  - vm_compute. reflexivity.
  - vm_compute. reflexivity.
  - decide_it.
  - intros u Hu Hmail. each_row Hu; discriminate Hmail.
Defined.

(** A second registration under Alice's email. *)
Lemma duplicate_email_witness :
  exists s',
    serve (register env (Some alice_again)) session
    = (Replied (mkReply 409 (JObj [("error", JStr "Email already registered")])), s')
    /\ committed s' = committed session
    /\ seqs s' = seqs session
    /\ log s' = Select TUsers :: log session.
Proof.
  apply (duplicate_email_conflict uuid_str generate_password_hash pg_text pg_int pg_numeric
           str_exn env alice_again "buyer" "alice@example.com" BUYER session session_idle).
  - vm_compute. reflexivity.
  - vm_compute. reflexivity.
  - vm_compute. reflexivity.
  - vm_compute. reflexivity.
  - decide_it.
Defined.

(** A farmer registration without phone_number: 400, and no row stays. *)
Lemma registration_atomic_witness :
  fst (serve (register env (Some farmer_signup_no_phone)) session)
  = Replied (mkReply 400
       (JObj [("error", JStr "Farmers require farm_name, location, and phone_number")]))
  /\ committed (snd (serve (register env (Some farmer_signup_no_phone)) session))
     = committed session.
Proof.
  destruct (registration_atomic uuid_str generate_password_hash pg_text pg_int pg_numeric
              str_exn env (Some farmer_signup_no_phone) session session_idle)
    as (_ & Hfarmer & _).
  edestruct (Hfarmer farmer_signup_no_phone "farmer" (Some "eve@example.com") "pw123456")
    as (Hreply & Hsame & _).
  - reflexivity.
  - vm_compute. reflexivity.
  - vm_compute. reflexivity.
  - vm_compute. reflexivity.
  - vm_compute. reflexivity.
  - intros u Hu. each_row Hu.
  - vm_compute. reflexivity.
  - vm_compute. reflexivity.
  - vm_compute. reflexivity.
  - split; [exact Hreply|exact Hsame].
Defined.

(** The same email registers afterwards; a buyer registration commits the
    User and its Buyer row together; a failing COMMIT leaves neither. *)
Example register_buyer_commits_both :
  fst (serve (register env (Some buyer_signup)) session)
  = Replied (mkReply 201 (JObj [("message", JStr "Buyer registered successfully");
                                ("user_id", JStr "13")]))
  /\ map user_email (users (committed (snd (serve (register env (Some buyer_signup)) session))))
     = ["alice@example.com"; "bob@example.com"; "carol@example.com"; "dan@example.com"]
  /\ map buyer_user_id
       (buyers (committed (snd (serve (register env (Some buyer_signup)) session))))
     = [10%N; 11%N; 13%N].
Proof. vm_compute. repeat split. Qed.

Example register_commit_fault_leaves_nothing :
  serve (register (mkEnv 13%N 200 "salt" true) (Some buyer_signup)) session
  = (Replied (mkReply 500 (JObj [("error", JStr "database error")])),
     mkSession tables tables [] (mkSeqs 2 4 8 4)
       [Rollback; Commit; Insert TBuyers; Insert TUsers; Select TUsers]).
Proof. vm_compute. reflexivity. Qed.


Example create_order_uses_callers_buyer :
  map (fun o => (order_id o, order_buyer_id o, order_status o))
    (orders (committed (snd (serve (create_order env alice_sub (Some order_payload)) session))))
  = [(7, 2, Some "paid"); (8, 1, Some "paid")].
Proof. vm_compute. reflexivity. Qed.



(** Alice posts animal_id 4.75 twice: the duplicate check finds nothing
    either time, and both requests store an entry for the cow, animal 5. *)
Lemma wishlist_add_repeats_witness :
  wished_times 10%N 5
    (committed (repeat_add [env; env] alice_sub (Some wish_cow_roughly) session))
  = (wished_times 10%N 5 (committed session) + 2)%nat.
Proof.
  assert (Hnever : forall c : Z, bool_decide (float_exact 4.75%float = Some c) = false).
  { intros c. apply bool_decide_eq_false.
    replace (float_exact 4.75%float) with (@None Z) by (vm_compute; reflexivity).
    discriminate. }
  destruct (wishlist_add_repeats_unrecognised uuid_parse uuid_str pg_text pg_int pg_numeric
              str_exn isoformat alice_sub 10%N wish_cow_roughly
              (fun c => bool_decide (float_exact 4.75%float = Some c)) 5 session
              eq_refl session_idle eq_refl eq_refl Hnever)
    as [_ Hcount].
  - vm_compute. reflexivity.
  - decide_it.
  - decide_it.
  - apply (Hcount [env; env]). repeat constructor.
Defined.

Example wishlist_add_roughly_twice :
  map (fun w => (wishlist_id w, wishlist_user_id w, wishlist_animal_id w))
    (wishlists (committed (repeat_add [env; env] alice_sub (Some wish_cow_roughly) session)))
  = [(3, 11%N, 5); (4, 10%N, 5); (5, 10%N, 5)]
  /\ fst (serve (add_to_wishlist env alice_sub (Some wish_cow_roughly))
            (snd (serve (add_to_wishlist env alice_sub (Some wish_cow_roughly)) session)))
     = fst (serve (add_to_wishlist (mkEnv 13%N 200 "salt" false) alice_sub
                     (Some (list_to_map [("animal_id", JInt 5)]))) 
              (mkSession tables tables [] (mkSeqs 2 3 8 5) []))
  /\ wishlist_count 10%N
       (committed (repeat_add [env; env] alice_sub (Some wish_cow_roughly) session)) = 2%nat.
Proof. vm_compute. repeat split. Qed.

(** Alice wishes for the cow three times over, by its integer id. *)
Lemma recognised_add_example :
  (wishlist_count 10%N (committed (repeat_add [env; env; env] alice_sub (Some wish_cow) session))
   <= wishlist_count 10%N (committed session) + 1)%nat.
Proof.
  destruct (recognised_add_is_idempotent uuid_parse uuid_str pg_text pg_int pg_numeric str_exn
              isoformat alice_sub 10%N wish_cow (fun c => bool_decide (c = 5)) session
              eq_refl session_idle eq_refl eq_refl)
    as [_ Hcount].
  - intros a Ha. vm_compute in Ha. injection Ha as <-. reflexivity.
  - apply Hcount.
Qed.

Example wishlist_second_add_is_noop :
  fst (serve (add_to_wishlist env alice_sub (Some wish_cow))
         (snd (serve (add_to_wishlist env alice_sub (Some wish_cow)) session)))
  = Replied already_listed
  /\ wishlist_count 10%N
       (committed (repeat_add [env; env; env] alice_sub (Some wish_cow) session)) = 1%nat.
Proof. vm_compute. split; reflexivity. Qed.

End Run.

(** ** More runs on the sample database *)

Module More.
Import Sample.

Abbreviation register :=
  (register uuid_str generate_password_hash pg_text pg_int pg_numeric str_exn).
Abbreviation login :=
  (login uuid_str check_password_hash pg_text pg_int pg_numeric create_access_token).
Abbreviation get_current_user :=
  (get_current_user uuid_parse uuid_str pg_text pg_int pg_numeric isoformat).
Abbreviation get_my_orders := (get_my_orders uuid_parse pg_text pg_int pg_numeric isoformat).
Abbreviation create_order := (create_order uuid_parse pg_text pg_int pg_numeric isoformat).
Abbreviation get_order := (get_order uuid_parse pg_text pg_int pg_numeric isoformat).
Abbreviation get_order_stats :=
  (get_order_stats uuid_parse pg_text pg_int pg_numeric fsum round2).
Abbreviation get_my_wishlist :=
  (get_my_wishlist uuid_parse uuid_str pg_text pg_int pg_numeric isoformat).
Abbreviation add_to_wishlist :=
  (add_to_wishlist uuid_parse uuid_str pg_text pg_int pg_numeric str_exn isoformat).
Abbreviation remove_from_wishlist :=
  (remove_from_wishlist uuid_parse pg_text pg_int pg_numeric).
Abbreviation check_in_wishlist := (check_in_wishlist uuid_parse pg_text pg_int pg_numeric).
Abbreviation get_wishlist_count := (get_wishlist_count uuid_parse pg_text pg_int pg_numeric).

Ltac rows H :=
  apply list_elem_of_In in H; simpl in H;
  repeat (destruct H as [<- | H]; [try discriminate; try reflexivity|]); try contradiction.

Ltac listed := apply list_elem_of_In; simpl; tauto.

Ltac decided := refine (bool_decide_unpack _ _); vm_compute; exact I.

Lemma idle_session : idle session.
Proof. split; reflexivity. Defined.

Lemma sample_keys_ok : keys_ok (committed session) (seqs session).
Proof.
  unfold keys_ok, fresh_keys. simpl.
  split; [|split; [|split; [|split; [|split; [|split]]]]]; try decided;
    (split; [decided|intros x Hx; rows Hx; simpl; lia]).
Defined.

Lemma read_handlers_witness :
  Forall (fun h : M Reply =>
            reads_only (committed session) (seqs session) (log session) (snd (h session)))
    [get_my_orders env bob_sub; get_order env bob_sub "7"; get_order_stats env bob_sub;
     get_my_wishlist env bob_sub; check_in_wishlist env bob_sub "7";
     get_wishlist_count env bob_sub; get_current_user env bob_sub;
     login env (Some login_wrong_password)].
Proof.
  exact (read_handlers_only_select uuid_parse uuid_str check_password_hash pg_text pg_int
           pg_numeric fsum round2 isoformat create_access_token env bob_sub "7"
           (Some login_wrong_password) session idle_session).
Defined.

Lemma my_orders_witness :
  fst (serve (get_my_orders env bob_sub) session)
  = Replied (mkReply 200 (JArr [order_to_dict isoformat bobs_order])).
Proof.
  destruct (my_orders_lists_own_only uuid_parse pg_text pg_int pg_numeric isoformat env
              bob_sub 11%N bobs_buyer session eq_refl idle_session eq_refl) as [H _].
  exact H.
Defined.

Lemma get_order_own_witness :
  fst (serve (get_order env bob_sub "7") session)
  = Replied (mkReply 200 (order_to_dict isoformat bobs_order)).
Proof.
  apply (get_order_returns_own uuid_parse pg_text pg_int pg_numeric isoformat env
           bob_sub "7" 11%N bobs_buyer bobs_order session eq_refl idle_session eq_refl);
    try reflexivity; try listed; decided.
Defined.

Lemma created_order_fetchable_witness :
  exists o,
    order_id o = 8
    /\ fst (serve (get_order env alice_sub "8")
              (snd (serve (create_order env alice_sub (Some order_payload)) session)))
       = Replied (mkReply 200 (order_to_dict isoformat o)).
Proof.
  edestruct (created_order_is_fetchable uuid_parse pg_text pg_int pg_numeric isoformat
               env env alice_sub "8" 10%N (Some order_payload))
    as (o & _ & Hid & Hget).
  - reflexivity.
  - exact idle_session.
  - exact sample_keys_ok.
  - vm_compute. reflexivity.
  - reflexivity.
  - exists o. split; [exact Hid|]. apply Hget. rewrite Hid. reflexivity.
Defined.

Lemma create_order_rejections_witness :
  fst (serve (create_order env carol_sub (Some order_payload)) session)
  = Replied (not_found "No buyer profile found for this user")
  /\ fst (serve (create_order env alice_sub None) session)
     = Replied (mkReply 400
          (JObj [("message", JStr "Missing required fields: items, total_amount")])).
Proof.
  split.
  - destruct (create_order_rejections uuid_parse pg_text pg_int pg_numeric isoformat env
                carol_sub 12%N (Some order_payload) session eq_refl idle_session)
      as [H _].
    rewrite H; reflexivity.
  - destruct (create_order_rejections uuid_parse pg_text pg_int pg_numeric isoformat env
                alice_sub 10%N None session eq_refl idle_session)
      as [_ H].
    rewrite (H (mkBuyer 1 10%N None None 100)); [reflexivity|reflexivity|exact I].
Defined.

Lemma wishlist_reads_witness :
  fst (serve (get_my_wishlist env bob_sub) session)
  = Replied (mkReply 200
       (JArr [wishlist_to_dict uuid_str isoformat bobs_wish (Some cow)]))
  /\ fst (serve (get_wishlist_count env bob_sub) session)
     = Replied (mkReply 200 (JObj [("count", JInt 1)]))
  /\ exists found,
       fst (serve (check_in_wishlist env bob_sub "5") session)
       = Replied (mkReply 200 (JObj [("in_wishlist", JBool found)]))
       /\ (found = true <-> wished 11%N 5 (committed session)).
Proof.
  destruct (wishlist_reads_agree uuid_parse uuid_str pg_text pg_int pg_numeric isoformat
              env bob_sub "5" 11%N 5 session eq_refl idle_session eq_refl)
    as (Hlist & Hcount & _ & Hcheck).
  split; [exact Hlist|]. split; [exact Hcount|exact Hcheck].
Defined.

Lemma alice_has_no_wish (a : Z) : ~ wished 10%N a (committed session).
Proof. intros (w & Hw & Hu & _). rows Hw. Defined.

Lemma wishlist_add_then_read_witness :
  fst (serve (check_in_wishlist env alice_sub "5") session)
  = Replied (mkReply 200 (JObj [("in_wishlist", JBool false)]))
  /\ fst (serve (check_in_wishlist env alice_sub "5")
            (snd (serve (add_to_wishlist env alice_sub (Some wish_cow)) session)))
     = Replied (mkReply 200 (JObj [("in_wishlist", JBool true)]))
  /\ wishlist_count 10%N
       (committed (snd (serve (add_to_wishlist env alice_sub (Some wish_cow)) session)))
     = S (wishlist_count 10%N (committed session)).
Proof.
  destruct (wishlist_add_then_read uuid_parse uuid_str pg_text pg_int pg_numeric str_exn
              isoformat env env alice_sub "5" 10%N wish_cow 5 session eq_refl idle_session
              eq_refl eq_refl eq_refl (alice_has_no_wish 5) eq_refl eq_refl eq_refl)
    as (_ & H).
  exact H.
Defined.

Lemma wishlist_unknown_animal_witness :
  fst (serve (add_to_wishlist env alice_sub (Some wish_unicorn)) session)
  = Replied (mkReply 500 (JObj [("error", JStr "Backend Crash");
                                ("details", JStr "database error")]))
  /\ committed (snd (serve (add_to_wishlist env alice_sub (Some wish_unicorn)) session))
     = committed session.
Proof.
  destruct (wishlist_add_unknown_animal uuid_parse uuid_str pg_text pg_int pg_numeric
              str_exn isoformat env alice_sub 10%N wish_unicorn 99 session eq_refl
              idle_session eq_refl eq_refl eq_refl (alice_has_no_wish 99))
    as (H1 & H2 & _).
  split; [exact H1|exact H2].
Defined.

Lemma wishlist_needs_animal_id_witness :
  add_to_wishlist env alice_sub (Some ∅) session
  = (Ok (mkReply 400 (JObj [("message", JStr "Missing required field: animal_id")])),
     session).
Proof.
  apply (wishlist_add_needs_animal_id uuid_parse uuid_str pg_text pg_int pg_numeric
           str_exn isoformat env alice_sub 10%N (Some ∅) session eq_refl).
  reflexivity.
Defined.

Lemma wishlist_remove_witness :
  fst (serve (remove_from_wishlist env bob_sub "3") session)
  = Replied (mkReply 200 (JObj [("message", JStr "Removed from wishlist")]))
  /\ wishlists (committed (snd (serve (remove_from_wishlist env bob_sub "3") session))) = [].
Proof.
  destruct (wishlist_remove_own uuid_parse pg_text pg_int pg_numeric env bob_sub "3"
              11%N 3 bobs_wish session eq_refl idle_session eq_refl)
    as [Hok _]; try reflexivity; try listed.
  destruct (Hok eq_refl) as (H1 & _ & _).
  split; [exact H1|]. vm_compute. reflexivity.
Defined.

Lemma register_rejects_witness :
  register env (Some signup_without_role) session
  = (Ok (mkReply 400 (JObj [("error", JStr "Missing email, password, or role")])), session)
  /\ exists reply,
       register env (Some signup_as_admin) session = (Ok reply, session)
       /\ status reply = 400.
Proof.
  split.
  - destruct (register_rejects_before_db uuid_str generate_password_hash pg_text pg_int
                pg_numeric str_exn env signup_without_role session) as [H _].
    apply H. vm_compute. reflexivity.
  - destruct (register_rejects_before_db uuid_str generate_password_hash pg_text pg_int
                pg_numeric str_exn env signup_as_admin session) as (_ & _ & H).
    apply (H "Admin"); vm_compute; reflexivity.
Defined.

Lemma farmer_phone_conflict_witness :
  fst (serve (register env (Some farmer_signup_carols_phone)) session)
  = Replied (mkReply 409 (JObj [("error", JStr "Phone number already registered")]))
  /\ committed (snd (serve (register env (Some farmer_signup_carols_phone)) session))
     = committed session.
Proof.
  edestruct (farmer_phone_conflict uuid_str generate_password_hash pg_text pg_int
               pg_numeric str_exn env farmer_signup_carols_phone "farmer" "pw123456"
               "0711" (Some "gus@example.com"))
    as (H1 & H2 & _).
  - exact idle_session.
  - vm_compute. reflexivity.
  - vm_compute. reflexivity.
  - vm_compute. reflexivity.
  - vm_compute. reflexivity.
  - intros u Hu. rows Hu.
  - vm_compute. reflexivity.
  - vm_compute. reflexivity.
  - vm_compute. reflexivity.
  - vm_compute. reflexivity.
  - vm_compute. reflexivity.
  - discriminate.
  - decided.
  - split; [exact H1|exact H2].
Defined.



Lemma register_role_case_witness :
  register env (Some (<["role" := JStr "buyer"]> buyer_signup)) session
  = register env (Some buyer_signup) session.
Proof.
  apply (register_role_case_insensitive uuid_str generate_password_hash pg_text pg_int
           pg_numeric str_exn env buyer_signup "Buyer" session).
  vm_compute. reflexivity.
Defined.

Lemma me_witness :
  fst (serve (get_current_user env alice_sub) session)
  = Replied (mkReply 200
       (JObj (user_json uuid_str alice ++ [("created_at", JStr (isoformat 100))]))).
Proof.
  destruct (me_returns_own_record uuid_parse uuid_str pg_text pg_int pg_numeric isoformat
              env alice_sub 10%N session eq_refl idle_session) as [_ H].
  apply (H alice); [decided|listed|reflexivity].
Defined.

Lemma created_order_counted_witness :
  exists n spent spent',
    fst (serve (get_order_stats env alice_sub) session)
    = Replied (mkReply 200 (JObj [("total_orders", JInt n); ("total_spent", spent)]))
    /\ fst (serve (get_order_stats env alice_sub)
              (snd (serve (create_order env alice_sub (Some order_payload)) session)))
       = Replied (mkReply 200 (JObj [("total_orders", JInt (n + 1));
                                     ("total_spent", spent')])).
Proof.
  refine (created_order_is_counted uuid_parse pg_text pg_int pg_numeric fsum round2
            isoformat env env alice_sub 10%N (Some order_payload) _ session eq_refl
            idle_session _ _).
  - vm_compute. reflexivity.
  - reflexivity.
Defined.

End More.
